(** * Daraja payment gateway: the two Express servers, embedded and verified

    [src/server.js] is the generic payment demo (in-memory [Map] of payments,
    [POST /api/pay], [GET /api/status/:id], a 2 s completion timer);
    [src/index.js] is the Daraja (M-Pesa STK push) gateway ([POST /stk_push],
    [POST /callback], token acquisition and push submission).

    Layout: [JS] models the JavaScript built-ins the handlers call
    (numbers, [Number], [parseInt], [String], truthiness, regular
    expressions, [Date.prototype.toISOString], base64); [Server] embeds
    server.js; [Index] embeds index.js.  The theorems follow the
    definitions.

    Strings are modelled by their UTF-8 bytes.  Request fields range over the
    JSON primitives (absent, null, booleans, numbers, strings), which is what
    the route documentation of server.js announces
    ([{ amount: number, phone: string, reference?: string }]) extended with
    the other primitives. *)

From Stdlib Require Import ZArith QArith String Ascii List Lia Bool.
From stdpp Require Import gmap strings list fin_maps.

Local Open Scope Z_scope.

(** ** JavaScript built-ins *)

Module JS.

(** *** Numbers

    A JavaScript number is NaN, an infinity or a finite binary64 value, kept
    here as the exact rational it denotes.  The sign of zero is not kept:
    every use these programs make of a number (comparison, truthiness,
    conversion to a string) treats -0 as 0. *)

Inductive number : Type :=
  | NaN
  | Inf (negative : bool)
  | Fin (q : Q).

Definition pow2Q (e : Z) : Q :=
  if 0 <=? e then inject_Z (2 ^ e) else Qmake 1 (Z.to_pos (2 ^ (- e))).

Definition pow10Q (e : Z) : Q :=
  if 0 <=? e then inject_Z (10 ^ e) else Qmake 1 (Z.to_pos (10 ^ (- e))).

(** Round the positive rational [n/d] to the nearest binary64 value, ties to
    even: 53 bits of mantissa, least exponent -1074, overflow to infinity. *)
Definition round_pos (n d : positive) : number :=
  let b := Z.log2 (Zpos n) - Z.log2 (Zpos d) in
  let above :=
    if 0 <=? b then Zpos d * 2 ^ b <=? Zpos n
    else Zpos d <=? Zpos n * 2 ^ (- b) in
  let fl := if above then b else b - 1 in
  let e := Z.max (fl - 52) (-1074) in
  let num := Zpos n * 2 ^ Z.max (- e) 0 in
  let den := Zpos d * 2 ^ Z.max e 0 in
  let qt := num / den in
  let r := num mod den in
  let m :=
    if 2 * r <? den then qt
    else if den <? 2 * r then qt + 1
    else if Z.even qt then qt else qt + 1 in
  if 971 <? e then Inf false
  else if (e =? 971) && (2 ^ 53 <=? m) then Inf false
  else Fin (Qred (inject_Z m * pow2Q e)).

Definition neg (x : number) : number :=
  match x with
  | NaN => NaN
  | Inf s => Inf (negb s)
  | Fin q => Fin (Qred (- q))
  end.

Definition round_double (q : Q) : number :=
  match Qnum q with
  | Z0 => Fin 0
  | Zpos n => round_pos n (Qden q)
  | Zneg n => neg (round_pos n (Qden q))
  end.

(** The number for a mathematical integer; up to 2^53 in magnitude every
    integer is a binary64 value. *)
Definition number_of_Z (v : Z) : number :=
  if Z.abs v <=? 2 ^ 53 then Fin (inject_Z v) else round_double (inject_Z v).

Definition number_eqb (x y : number) : bool :=
  match x, y with
  | NaN, NaN => true
  | Inf a, Inf b => Bool.eqb a b
  | Fin p, Fin q => Qeq_bool p q
  | _, _ => false
  end.

(** [x <= y], [x > y] and [isNaN] on numbers: a comparison with NaN is
    false. *)
Definition le (x y : number) : bool :=
  match x, y with
  | NaN, _ | _, NaN => false
  | Inf true, _ => true
  | _, Inf false => true
  | Inf false, _ => false
  | _, Inf true => false
  | Fin p, Fin q => Qle_bool p q
  end.

Definition gt (x y : number) : bool :=
  match x, y with
  | NaN, _ | _, NaN => false
  | Inf true, _ => false
  | _, Inf false => false
  | Inf false, _ => true
  | _, Inf true => true
  | Fin p, Fin q => negb (Qle_bool p q)
  end.

Definition number_isNaN (x : number) : bool :=
  match x with NaN => true | _ => false end.

(** *** Characters and digits *)

Definition code (c : ascii) : Z := Z.of_nat (nat_of_ascii c).

Definition is_digit (c : ascii) : bool := (48 <=? code c) && (code c <=? 57).

Definition digit_val (c : ascii) : Z := code c - 48.

(** Value of a character as a digit in radix 16, if it is one. *)
Definition hex_val (c : ascii) : option Z :=
  let k := code c in
  if (48 <=? k) && (k <=? 57) then Some (k - 48)
  else if (97 <=? k) && (k <=? 102) then Some (k - 87)
  else if (65 <=? k) && (k <=? 70) then Some (k - 55)
  else None.

Definition radix_val (radix : Z) (c : ascii) : option Z :=
  match hex_val c with
  | Some v => if v <? radix then Some v else None
  | None => None
  end.

Definition digit_char (v : Z) : ascii := ascii_of_nat (Z.to_nat (48 + v)).

(** Decimal digits of a non-negative integer, most significant first;
    [fuel] bounds the number of digits. *)
Fixpoint digits_fuel (fuel : nat) (v : Z) (acc : string) : string :=
  match fuel with
  | O => acc
  | S f =>
      let acc' := String (digit_char (v mod 10)) acc in
      if v <? 10 then acc' else digits_fuel f (v / 10) acc'
  end.

Definition decimal (v : Z) : string :=
  digits_fuel (S (Z.to_nat (Z.log2 v))) v EmptyString.

(** *** [Number::toString]

    For a positive finite [x], ECMAScript picks integers [n], [k >= 1] and
    [s] with [10^(k-1) <= s < 10^k] such that [s * 10^(n-k)] rounds to [x]
    and [k] is least; the digits of [s] and the exponent [n] are then laid
    out in fixed or exponent notation. *)

(** The [n] with [10^(n-1) <= q < 10^n], searched upwards from [start]. *)
Fixpoint dec_exponent_from (fuel : nat) (start : Z) (q : Q) : Z :=
  match fuel with
  | O => start
  | S f =>
      if Qle_bool (pow10Q start) q then dec_exponent_from f (start + 1) q
      else start
  end.

Definition dec_exponent (q : Q) : Z :=
  let b := Z.log2 (Qnum q) - Z.log2 (Zpos (Qden q)) in
  dec_exponent_from 8 ((b - 1) * 30103 / 100000 - 2) q.

Definition Qfloor_Z (q : Q) : Z := Qnum q / Zpos (Qden q).

Definition Qabs_diff (p q : Q) : Q :=
  if Qle_bool p q then (q - p)%Q else (p - q)%Q.

(** The [s] for [k] digits, if some [k]-digit [s] round-trips: of the two
    integers around [q * 10^(k-n)], the round-tripping one closest to [q]
    (the even one on a tie). *)
Definition shortest_at (x : number) (q : Q) (n k : Z) : option Z :=
  let scale := pow10Q (n - k) in
  let lo := Qfloor_Z (q / scale) in
  let hi := lo + 1 in
  let ok s := (0 <? s) && number_eqb (round_double (inject_Z s * scale)) x in
  let dlo := Qabs_diff (inject_Z lo * scale) q in
  let dhi := Qabs_diff (inject_Z hi * scale) q in
  match ok lo, ok hi with
  | true, true =>
      if Qeq_bool dlo dhi then Some (if Z.even lo then lo else hi)
      else if Qle_bool dlo dhi then Some lo else Some hi
  | true, false => Some lo
  | false, true => Some hi
  | false, false => None
  end.

Fixpoint shortest_from (fuel : nat) (x : number) (q : Q) (n k : Z) : Z * Z :=
  match fuel with
  | O => (Qfloor_Z (q / pow10Q (n - k)), k)
  | S f =>
      match shortest_at x q n k with
      | Some s => (s, k)
      | None => shortest_from f x q n (k + 1)
      end
  end.

Fixpoint strip_zeros_rev (s : list ascii) : list ascii :=
  match s with
  | c :: r => if Ascii.eqb c "0" then strip_zeros_rev r else s
  | nil => nil
  end.

Definition strip_trailing_zeros (s : string) : string :=
  string_of_list_ascii
    (rev (strip_zeros_rev (rev (list_ascii_of_string s)))).

Fixpoint zeros (k : nat) : string :=
  match k with O => EmptyString | S j => String "0" (zeros j) end.

Definition exponent_part (n : Z) : string :=
  String "e" (String (if n - 1 <? 0 then "-"%char else "+"%char)
                     (decimal (Z.abs (n - 1)))).

(** Layout of the digits [ds] (no trailing zero) with decimal exponent [n]. *)
Definition layout (ds : string) (n : Z) : string :=
  let k := Z.of_nat (String.length ds) in
  if (k <=? n) && (n <=? 21) then ds +:+ zeros (Z.to_nat (n - k))
  else if (0 <? n) && (n <=? 21) then
    substring 0 (Z.to_nat n) ds +:+ "." +:+
    substring (Z.to_nat n) (Z.to_nat (k - n)) ds
  else if (-6 <? n) && (n <=? 0) then
    "0." +:+ zeros (Z.to_nat (- n)) +:+ ds
  else if k =? 1 then ds +:+ exponent_part n
  else
    substring 0 1 ds +:+ "." +:+ substring 1 (Z.to_nat (k - 1)) ds +:+
    exponent_part n.

Definition positive_to_string (q : Q) : string :=
  let n := dec_exponent q in
  let '(s, k) := shortest_from 17 (Fin (Qred q)) q n 1 in
  let ds := decimal s in
  let n' := n + (Z.of_nat (String.length ds) - k) in
  layout (strip_trailing_zeros ds) n'.

Definition number_to_string (x : number) : string :=
  match x with
  | NaN => "NaN"
  | Inf false => "Infinity"
  | Inf true => "-Infinity"
  | Fin q =>
      match Qnum q with
      | Z0 => "0"
      | Zpos _ => positive_to_string q
      | Zneg _ => String "-" (positive_to_string (- q))
      end
  end.

(** *** White space

    [StrWhiteSpaceChar] of ECMAScript (white space and line terminators),
    recognised on the UTF-8 bytes: TAB, LF, VT, FF, CR, SP; U+00A0; U+1680,
    U+2000..U+200A, U+2028, U+2029, U+202F, U+205F, U+3000, U+FEFF. *)

Definition ws1 (a : ascii) : bool :=
  let k := code a in
  ((9 <=? k) && (k <=? 13)) || (k =? 32).

Definition ws2 (a b : ascii) : bool := (code a =? 194) && (code b =? 160).

Definition ws3 (a b c : ascii) : bool :=
  let ka := code a in
  let kb := code b in
  let kc := code c in
  ((ka =? 225) && (kb =? 154) && (kc =? 128))
  || ((ka =? 226) && (kb =? 128)
      && (((128 <=? kc) && (kc <=? 138)) || (kc =? 168) || (kc =? 169)
          || (kc =? 175)))
  || ((ka =? 226) && (kb =? 129) && (kc =? 159))
  || ((ka =? 227) && (kb =? 128) && (kc =? 128))
  || ((ka =? 239) && (kb =? 187) && (kc =? 191)).

Fixpoint trim_start_list (s : list ascii) : list ascii :=
  match s with
  | a :: r =>
      if ws1 a then trim_start_list r
      else
        match r with
        | b :: r' =>
            if ws2 a b then trim_start_list r'
            else
              match r' with
              | c :: r'' => if ws3 a b c then trim_start_list r'' else s
              | nil => s
              end
        | nil => s
        end
  | nil => nil
  end.

(** The same on the reversed string, for the trailing white space. *)
Fixpoint trim_end_rev (s : list ascii) : list ascii :=
  match s with
  | c :: r =>
      if ws1 c then trim_end_rev r
      else
        match r with
        | b :: r' =>
            if ws2 b c then trim_end_rev r'
            else
              match r' with
              | a :: r'' => if ws3 a b c then trim_end_rev r'' else s
              | nil => s
              end
        | nil => s
        end
  | nil => nil
  end.

Definition trim_start (s : string) : string :=
  string_of_list_ascii (trim_start_list (list_ascii_of_string s)).

Definition trim (s : string) : string :=
  string_of_list_ascii
    (rev (trim_end_rev (rev (trim_start_list (list_ascii_of_string s))))).

(** *** [StringToNumber] (the [Number(string)] conversion) *)

(** The longest prefix of decimal digits, and what follows it. *)
Fixpoint take_digits (s : string) : string * string :=
  match s with
  | String c r =>
      if is_digit c then
        let '(ds, rest) := take_digits r in (String c ds, rest)
      else (EmptyString, s)
  | EmptyString => (EmptyString, EmptyString)
  end.

(** Value in [radix] of the longest prefix of digits of that radix, from
    the accumulator [acc]. *)
Fixpoint radix_value (radix acc : Z) (s : string) : Z :=
  match s with
  | String c r =>
      match radix_val radix c with
      | Some v => radix_value radix (acc * radix + v) r
      | None => acc
      end
  | EmptyString => acc
  end.

Fixpoint all_radix (radix : Z) (s : string) : bool :=
  match s with
  | String c r =>
      match radix_val radix c with
      | Some _ => all_radix radix r
      | None => false
      end
  | EmptyString => true
  end.

Definition is_empty (s : string) : bool :=
  match s with EmptyString => true | _ => false end.

(** [ExponentPart], optional, up to the end of the string. *)
Definition parse_exponent (s : string) : option Z :=
  match s with
  | EmptyString => Some 0
  | String c r =>
      if Ascii.eqb c "e" || Ascii.eqb c "E" then
        let '(sgn, r1) :=
          match r with
          | String "+" r' => (1, r')
          | String "-" r' => (-1, r')
          | _ => (1, r)
          end in
        let '(ds, rest) := take_digits r1 in
        if is_empty ds || negb (is_empty rest) then None
        else Some (sgn * radix_value 10 0 ds)
      else None
  end.

(** [StrUnsignedDecimalLiteral]: [Infinity], or digits with an optional
    fraction and exponent. *)
Definition parse_unsigned_decimal (s : string) : number :=
  if String.eqb s "Infinity" then Inf false
  else
    let '(ip, r1) := take_digits s in
    let '(fp, r2) :=
      match r1 with
      | String "." r' => take_digits r'
      | _ => (EmptyString, r1)
      end in
    if is_empty ip && is_empty fp then NaN
    else
      match parse_exponent r2 with
      | None => NaN
      | Some e =>
          let m := radix_value 10 0 (ip +:+ fp) in
          let e' := e - Z.of_nat (String.length fp) in
          if 0 <=? e' then number_of_Z (m * 10 ^ e')
          else round_double (inject_Z m * pow10Q e')
      end.

Definition parse_prefixed (radix : Z) (ds : string) : number :=
  if is_empty ds || negb (all_radix radix ds) then NaN
  else number_of_Z (radix_value radix 0 ds).

Definition StringToNumber (str : string) : number :=
  match trim str with
  | EmptyString => Fin 0
  | String "0" (String "x" ds) | String "0" (String "X" ds) =>
      parse_prefixed 16 ds
  | String "0" (String "o" ds) | String "0" (String "O" ds) =>
      parse_prefixed 8 ds
  | String "0" (String "b" ds) | String "0" (String "B" ds) =>
      parse_prefixed 2 ds
  | String "+" r => parse_unsigned_decimal r
  | String "-" r => neg (parse_unsigned_decimal r)
  | s => parse_unsigned_decimal s
  end.

(** *** [parseInt(string)] with no radix argument *)

(** The mathematical integer [parseInt] reads: leading white space, a sign,
    an optional [0x]/[0X] switching to radix 16, then the longest prefix of
    digits; [None] when there is no digit. *)
Definition parseInt_Z (input : string) : option Z :=
  let s := trim_start input in
  let '(sign, s1) :=
    match s with
    | String "-" r => (-1, r)
    | String "+" r => (1, r)
    | _ => (1, s)
    end in
  let '(radix, s2) :=
    match s1 with
    | String "0" (String "x" r) | String "0" (String "X" r) => (16, r)
    | _ => (10, s1)
    end in
  match s2 with
  | String c _ =>
      match radix_val radix c with
      | Some _ => Some (sign * radix_value radix 0 s2)
      | None => None
      end
  | EmptyString => None
  end.

Definition parseInt_string (input : string) : number :=
  match parseInt_Z input with
  | Some k => number_of_Z k
  | None => NaN
  end.

(** The string is empty or starts with something else than a decimal
    digit. *)
Definition no_leading_digit (s : string) : bool :=
  match s with
  | String x _ => negb (is_digit x)
  | EmptyString => true
  end.

(** *** Values and conversions *)

Inductive value : Type :=
  | VUndefined
  | VNull
  | VBool (b : bool)
  | VNumber (x : number)
  | VString (s : string).

Definition ToBoolean (v : value) : bool :=
  match v with
  | VUndefined | VNull => false
  | VBool b => b
  | VNumber NaN => false
  | VNumber (Inf _) => true
  | VNumber (Fin q) => negb (Qeq_bool q 0)
  | VString s => negb (is_empty s)
  end.

Definition ToString (v : value) : string :=
  match v with
  | VUndefined => "undefined"
  | VNull => "null"
  | VBool true => "true"
  | VBool false => "false"
  | VNumber x => number_to_string x
  | VString s => s
  end.

Definition ToNumber (v : value) : number :=
  match v with
  | VUndefined => NaN
  | VNull => Fin 0
  | VBool true => Fin 1
  | VBool false => Fin 0
  | VNumber x => x
  | VString s => StringToNumber s
  end.

(** [v == null] *)
Definition loosely_null (v : value) : bool :=
  match v with VUndefined | VNull => true | _ => false end.

(** The global [isNaN], [parseInt] and [Number]. *)
Definition isNaN (v : value) : bool := number_isNaN (ToNumber v).

Definition parseInt (v : value) : number := parseInt_string (ToString v).

Definition Number (v : value) : number := ToNumber v.

(** *** Regular expressions

    The fragment the two programs use: literal characters, character
    classes, [\d], the anchors [^] and [$] (no [m] flag: start and end of
    input only), sequencing, [?] and bounded repetition [{lo,hi}].  A
    matcher state is the number of characters consumed so far and the
    characters left; [run] returns the states a match can end in, in the
    order backtracking tries them (greedy first). *)

Inductive regex : Type :=
  | Chr (c : ascii)
  | Class (cs : list ascii)
  | Digit
  | Bol
  | Eol
  | Seq (r1 r2 : regex)
  | Opt (r : regex)
  | Rep (r : regex) (lo hi : nat).

Definition mstate : Type := (nat * list ascii)%type.

Definition eat (p : ascii -> bool) (st : mstate) : list mstate :=
  match snd st with
  | x :: t => if p x then [(S (fst st), t)] else []
  | [] => []
  end.

(** At most [extra] more iterations, as many as possible first. *)
Fixpoint repeat_upto (step : mstate -> list mstate) (extra : nat)
    (st : mstate) : list mstate :=
  match extra with
  | S e => flat_map (repeat_upto step e) (step st) ++ [st]
  | O => [st]
  end.

(** [lo] iterations, then at most [extra] more. *)
Fixpoint repeat_run (step : mstate -> list mstate) (lo extra : nat)
    (st : mstate) : list mstate :=
  match lo with
  | S l => flat_map (repeat_run step l extra) (step st)
  | O => repeat_upto step extra st
  end.

Fixpoint run (r : regex) (st : mstate) : list mstate :=
  match r with
  | Chr c => eat (Ascii.eqb c) st
  | Class cs => eat (fun x => existsb (Ascii.eqb x) cs) st
  | Digit => eat is_digit st
  | Bol => match fst st with O => [st] | S _ => [] end
  | Eol => match snd st with [] => [st] | _ :: _ => [] end
  | Seq a b => flat_map (run b) (run a st)
  | Opt a => run a st ++ [st]
  | Rep a lo hi => repeat_run (run a) lo (hi - lo) st
  end.

Definition nonempty {A : Type} (l : list A) : bool :=
  match l with [] => false | _ :: _ => true end.

(** The state has consumed all the input. *)
Definition at_end (st : mstate) : bool :=
  match snd st with [] => true | _ :: _ => false end.

Definition matches_at (r : regex) (st : mstate) : bool :=
  match run r st with [] => false | _ :: _ => true end.

(** [RegExp.prototype.test] without the [g] flag: is there a match starting
    at some offset of the input? *)
Fixpoint search (r : regex) (pos : nat) (s : list ascii) : bool :=
  matches_at r (pos, s)
  || match s with
     | _ :: t => search r (S pos) t
     | [] => false
     end.

Definition test (r : regex) (s : string) : bool :=
  search r 0 (list_ascii_of_string s).

Abbreviation chars_of := list_ascii_of_string.

(** Strings made of decimal digits only, as [\d] understands them. *)
Definition all_digits (s : string) : bool :=
  forallb is_digit (list_ascii_of_string s).

(** Between [lo] and [hi] characters, all of them digits. *)
Definition digits_ok (lo hi : nat) (s : string) : bool :=
  all_digits s && (lo <=? String.length s)%nat && (String.length s <=? hi)%nat.

(** [String.prototype.replace] with a [g] regular expression whose matches
    consume at least one character (an empty match is stepped over):
    each match is replaced by [by_]. *)
Fixpoint replace_from (fuel : nat) (r : regex) (by_ : list ascii) (pos : nat)
    (s : list ascii) : list ascii :=
  match fuel with
  | O => s
  | S f =>
      match s with
      | [] => []
      | x :: t =>
          match run r (pos, s) with
          | (pos', rest) :: _ =>
              if (pos <? pos')%nat then by_ ++ replace_from f r by_ pos' rest
              else x :: replace_from f r by_ (S pos) t
          | [] => x :: replace_from f r by_ (S pos) t
          end
      end
  end.

Definition replace_all (r : regex) (by_ : string) (s : string) : string :=
  string_of_list_ascii
    (replace_from (String.length s) r (list_ascii_of_string by_) 0
       (list_ascii_of_string s)).

(** [s.split(sep)[0]] for a one-character separator: what precedes its first
    occurrence, or all of [s]. *)
Fixpoint split_first (sep : ascii) (s : string) : string :=
  match s with
  | String c r => if Ascii.eqb c sep then EmptyString
                  else String c (split_first sep r)
  | EmptyString => EmptyString
  end.

(** The character is not a full stop. *)
Definition dotless (c : ascii) : bool := negb (Ascii.eqb c ".").

(** The characters a class leaves in place. *)
Definition outside (cs : list ascii) (c : ascii) : bool :=
  negb (existsb (Ascii.eqb c) cs).

(** *** [Date.prototype.toISOString]

    A time value is the number of milliseconds since the epoch; the fields
    are ECMAScript's [Day], [YearFromTime], [MonthFromTime], [DateFromTime]
    and the time within the day, all in UTC. *)

Definition msPerDay : Z := 86400000.

Definition Day (t : Z) : Z := t / msPerDay.

Definition TimeWithinDay (t : Z) : Z := t mod msPerDay.

Definition DayFromYear (y : Z) : Z :=
  365 * (y - 1970) + (y - 1969) / 4 - (y - 1901) / 100 + (y - 1601) / 400.

Definition InLeapYear (y : Z) : bool :=
  ((y mod 4 =? 0) && negb (y mod 100 =? 0)) || (y mod 400 =? 0).

(** The largest [y] with [DayFromYear y <= day], reached from an estimate
    that is at most a year off. *)
Fixpoint year_adjust (fuel : nat) (day y : Z) : Z :=
  match fuel with
  | O => y
  | S f =>
      if day <? DayFromYear y then year_adjust f day (y - 1)
      else if DayFromYear (y + 1) <=? day then year_adjust f day (y + 1)
      else y
  end.

Definition YearFromDay (day : Z) : Z :=
  year_adjust 4 day (1970 + day * 400 / 146097).

(** Month (0..11) and day of the month (1..31) of a day within its year. *)
Definition MonthAndDate (d : Z) (leap : bool) : Z * Z :=
  let l := if leap then 1 else 0 in
  if d <? 31 then (0, d + 1)
  else if d <? 59 + l then (1, d - 30)
  else if d <? 90 + l then (2, d - 58 - l)
  else if d <? 120 + l then (3, d - 89 - l)
  else if d <? 151 + l then (4, d - 119 - l)
  else if d <? 181 + l then (5, d - 150 - l)
  else if d <? 212 + l then (6, d - 180 - l)
  else if d <? 243 + l then (7, d - 211 - l)
  else if d <? 273 + l then (8, d - 242 - l)
  else if d <? 304 + l then (9, d - 272 - l)
  else if d <? 334 + l then (10, d - 303 - l)
  else (11, d - 333 - l).

(** [v] in decimal on at least [w] digits, padded with zeros on the left. *)
Definition pad (w : nat) (v : Z) : string :=
  let ds := decimal v in
  zeros (w - String.length ds) +:+ ds.

Definition year_string (y : Z) : string :=
  if (0 <=? y) && (y <=? 9999) then pad 4 y
  else if y <? 0 then String "-" (pad 6 (- y))
  else String "+" (pad 6 y).

Definition toISOString (t : Z) : string :=
  let day := Day t in
  let y := YearFromDay day in
  let '(m, d) := MonthAndDate (day - DayFromYear y) (InLeapYear y) in
  let tw := TimeWithinDay t in
  year_string y +:+ "-" +:+ pad 2 (m + 1) +:+ "-" +:+ pad 2 d +:+ "T" +:+
  pad 2 (tw / 3600000) +:+ ":" +:+ pad 2 (tw / 60000 mod 60) +:+ ":" +:+
  pad 2 (tw / 1000 mod 60) +:+ "." +:+ pad 3 (tw mod 1000) +:+ "Z".

(** *** [Buffer.from(s).toString('base64')] *)

Definition base64_chars : string :=
  "ABCDEFGHIJKLMNOPQRSTUVWXYZabcdefghijklmnopqrstuvwxyz0123456789+/".

Definition base64_char (v : Z) : ascii :=
  match String.get (Z.to_nat v) base64_chars with
  | Some c => c
  | None => "="%char
  end.

Fixpoint base64_list (bs : list ascii) : list ascii :=
  match bs with
  | a :: b :: c :: r =>
      let n := code a * 65536 + code b * 256 + code c in
      base64_char (n / 262144) :: base64_char (n / 4096 mod 64)
      :: base64_char (n / 64 mod 64) :: base64_char (n mod 64)
      :: base64_list r
  | [a; b] =>
      let n := code a * 65536 + code b * 256 in
      [base64_char (n / 262144); base64_char (n / 4096 mod 64);
       base64_char (n / 64 mod 64); "="%char]
  | [a] =>
      let n := code a * 65536 in
      [base64_char (n / 262144); base64_char (n / 4096 mod 64);
       "="%char; "="%char]
  | [] => []
  end.

Definition base64 (s : string) : string :=
  string_of_list_ascii (base64_list (list_ascii_of_string s)).

End JS.
(** ** server.js: the generic payment demo *)

Module Server.
Import JS.

(** A payment record; [completedAt] is absent until the completion timer
    adds it. *)
Record payment : Type := {
  id : string;
  amount : number;
  phone : string;
  reference : value;
  status : string;
  createdAt : string;
  completedAt : option string
}.

(** [{ amount, phone, reference }] of the request body; a field that is
    absent is [VUndefined]. *)
Record body : Type := {
  b_amount : value;
  b_phone : value;
  b_reference : value
}.

(** [req.body || {}] *)
Definition body_or_empty (b : option body) : body :=
  match b with
  | Some b => b
  | None =>
      {| b_amount := VUndefined; b_phone := VUndefined;
         b_reference := VUndefined |}
  end.

(** What a handler reads from its environment: [Date.now()],
    [new Date()] and, for the [i]-th iteration of [cryptoRandomId],
    [Math.floor(Math.random() * chars.length)]. *)
Record env : Type := {
  date_now : Z;
  new_date : Z;
  random : nat -> nat
}.

(** A pending [setTimeout] callback: its delay and the [id] it closes
    over. *)
Record timer : Type := {
  delay : Z;
  timer_id : string
}.

(** The [payments] map and the timers not fired yet. *)
Record world : Type := {
  payments : gmap string payment;
  timers : list timer
}.

Definition initial : world := {| payments := ∅; timers := [] |}.

(** The objects passed to [res.json]. *)
Inductive reply : Type :=
  | OkPayment (p : payment)
  | Errors (errors : list string)
  | Error (error : string).

Record response : Type := {
  http_status : Z;
  json : reply
}.

Definition chars : string :=
  "ABCDEFGHIJKLMNOPQRSTUVWXYZabcdefghijklmnopqrstuvwxyz0123456789".

(** [chars[k]] appended to a string: out of range it is [undefined]. *)
Definition char_at (k : nat) : string :=
  match String.get k chars with
  | Some c => String c EmptyString
  | None => "undefined"
  end.

Fixpoint cryptoRandomId_loop (n i : nat) (draws : nat -> nat) (out : string)
    : string :=
  match n with
  | O => out
  | S n' => cryptoRandomId_loop n' (S i) draws (out +:+ char_at (draws i))
  end.

Definition cryptoRandomId (len : nat) (draws : nat -> nat) : string :=
  cryptoRandomId_loop len 0 draws EmptyString.

(** [/^\+?\d{7,15}$/] *)
Definition phone_pattern : regex :=
  Seq Bol (Seq (Opt (Chr "+")) (Seq (Rep Digit 7 15) Eol)).

Definition amount_error : string := "Amount must be a positive number.".

Definition phone_error : string :=
  "Phone must be digits, optionally starting with +, length 7–15.".

(** The two conditions under which an error is pushed. *)
Definition amount_bad (amount : value) : bool :=
  loosely_null amount
  || isNaN (VNumber (Number amount))
  || le (Number amount) (Fin 0).

Definition phone_bad (phone : value) : bool :=
  negb (ToBoolean phone) || negb (test phone_pattern (ToString phone)).

Definition validate (amount phone : value) : list string :=
  let errors := [] in
  let errors := if amount_bad amount then errors ++ [amount_error] else errors in
  let errors := if phone_bad phone then errors ++ [phone_error] else errors in
  errors.

Definition completion_delay : Z := 2000.

(** [POST /api/pay] *)
Definition pay (e : env) (b : option body) (w : world) : response * world :=
  let b := body_or_empty b in
  let amount := b_amount b in
  let phone := b_phone b in
  let reference :=
    match b_reference b with
    | VUndefined =>
        VString ("REF-" +:+ ToString (VNumber (number_of_Z (date_now e))))
    | r => r
    end in
  let errors := validate amount phone in
  if negb (length errors =? 0)%nat then
    ({| http_status := 400; json := Errors errors |}, w)
  else
    let id := cryptoRandomId 20 (random e) in
    let record :=
      {| id := id;
         amount := Number amount;
         phone := ToString phone;
         reference := reference;
         status := "PENDING";
         createdAt := toISOString (new_date e);
         completedAt := None |} in
    ({| http_status := 200; json := OkPayment record |},
     {| payments := <[id := record]> (payments w);
        timers := timers w ++ [{| delay := completion_delay; timer_id := id |}]
     |}).

(** The callback given to [setTimeout], run at time [now]. *)
Definition on_timeout (now : Z) (i : string) (ps : gmap string payment)
    : gmap string payment :=
  match ps !! i with
  | None => ps
  | Some r =>
      let r' :=
        {| id := id r;
           amount := amount r;
           phone := phone r;
           reference := reference r;
           status := "SUCCESS";
           createdAt := createdAt r;
           completedAt := Some (toISOString now) |} in
      <[i := r']> ps
  end.

(** [GET /api/status/:id] *)
Definition get_status (i : string) (w : world) : response * world :=
  match payments w !! i with
  | None => ({| http_status := 404; json := Error "Not found" |}, w)
  | Some record => ({| http_status := 200; json := OkPayment record |}, w)
  end.

(** What can happen to the server: a request to either route, or a pending
    timer firing. *)
Inductive event : Type :=
  | EPay (e : env) (b : option body)
  | EStatus (i : string)
  | ETimer (now : Z) (i : string).

Inductive step : world -> event -> world -> Prop :=
  | step_pay e b w :
      step w (EPay e b) (snd (pay e b w))
  | step_status i w :
      step w (EStatus i) (snd (get_status i w))
  | step_timer now d i before after w :
      timers w = before ++ {| delay := d; timer_id := i |} :: after ->
      step w (ETimer now i)
        {| payments := on_timeout now i (payments w);
           timers := before ++ after |}.

(** Runs of the server, latest event first. *)
Inductive run_from (w0 : world) : list event -> world -> Prop :=
  | run_nil : run_from w0 [] w0
  | run_cons evs w ev w' :
      run_from w0 evs w -> step w ev w' -> run_from w0 (ev :: evs) w'.

Definition reachable (w : world) : Prop := exists evs, run_from initial evs w.

(** The spec's terminal statuses. *)
Definition terminal (s : string) : bool :=
  String.eqb s "SUCCESS" || String.eqb s "FAILED".

(** A stored record is either pending and without [completedAt], or
    succeeded and with it. *)
Definition record_ok (r : payment) : Prop :=
  (status r = "PENDING" /\ completedAt r = None)
  \/ (status r = "SUCCESS" /\ is_Some (completedAt r)).

Definition store_ok (w : world) : Prop :=
  forall i r, payments w !! i = Some r -> record_ok r.

(** Every pending timer closes over an id that is in the store. *)
Definition timers_ok (w : world) : Prop :=
  forall t, In t (timers w) -> is_Some (payments w !! timer_id t).

Definition pending_at (i : string) (w : world) : Prop :=
  exists r, payments w !! i = Some r /\ status r = "PENDING"
            /\ completedAt r = None.

(** The event is the completion timer of id [i]. *)
Definition fires (i : string) (ev : event) : Prop :=
  match ev with
  | ETimer _ j => j = i
  | _ => False
  end.

End Server.
(** ** index.js: the Daraja STK-push gateway *)

Module Index.
Import JS.

(** [process.env]: a variable is a string or absent. *)
Record process_env : Type := {
  PORT : option string;
  SANDBOX : option string;
  CONSUMER_KEY : option string;
  CONSUMER_SECRET : option string;
  SHORTCODE : option string;
  PASSKEY : option string;
  CALLBACK_URL : option string;
  ACCOUNT_REF : option string
}.

Record config : Type := {
  sandbox : bool;
  consumerKey : string;
  consumerSecret : string;
  shortcode : string;
  passkey : string;
  callbackURL : string;
  accountRef : string
}.

(** [process.env.X || default]: an empty string is falsy too. *)
Definition or_default (v : option string) (d : string) : string :=
  match v with
  | Some s => if is_empty s then d else s
  | None => d
  end.

(** The configuration read at startup; [None] when a required variable is
    missing and the process exits. *)
Definition load_config (pe : process_env) : option config :=
  let port := or_default (PORT pe) "3000" in
  match CONSUMER_KEY pe, CONSUMER_SECRET pe, PASSKEY pe with
  | Some key, Some secret, Some pk =>
      if is_empty key || is_empty secret || is_empty pk then None
      else
        Some
          {| sandbox :=
               match SANDBOX pe with
               | Some s => String.eqb s "true"
               | None => false
               end;
             consumerKey := key;
             consumerSecret := secret;
             shortcode := or_default (SHORTCODE pe) "6434270";
             passkey := pk;
             callbackURL :=
               or_default (CALLBACK_URL pe)
                 ("http://localhost:" +:+ port +:+ "/callback");
             accountRef := or_default (ACCOUNT_REF pe) "HELB Disbursement" |}
  | _, _, _ => None
  end.

Record endpoints : Type := {
  auth : string;
  stkPush : string
}.

Definition getEndpoints (c : config) : endpoints :=
  if sandbox c then
    {| auth :=
         "https://sandbox.safaricom.co.ke/oauth/v1/generate?grant_type=client_credentials";
       stkPush :=
         "https://sandbox.safaricom.co.ke/mpesa/stkpush/v1/processrequest" |}
  else
    {| auth :=
         "https://api.safaricom.co.ke/oauth/v1/generate?grant_type=client_credentials";
       stkPush :=
         "https://api.safaricom.co.ke/mpesa/stkpush/v1/processrequest" |}.

(** The body of the provider's callback: any JSON document. *)
#[local] Unset Elimination Schemes.
Inductive json_doc : Type :=
  | JNull
  | JBool (b : bool)
  | JNumber (x : number)
  | JString (s : string)
  | JArray (items : list json_doc)
  | JObject (fields : list (string * json_doc)).
#[local] Set Elimination Schemes.

(** The [data] handed to [writeLog]. *)
Inductive log_data : Type :=
  | RequestData (phone : value) (amount : number)
  | CallbackData (ip : string) (data : option json_doc).

Record log_entry : Type := {
  timestamp : string;
  entry_data : log_data
}.

(** The payload posted to the STK-push endpoint. *)
Record stk_payload : Type := {
  BusinessShortCode : string;
  Password : string;
  Timestamp : string;
  TransactionType : string;
  Amount : number;
  PartyA : value;
  PartyB : string;
  PhoneNumber : value;
  CallBackURL : string;
  AccountReference : string;
  TransactionDesc : string
}.

(** What the handlers do to the outside world, in order: a line appended
    to a log file, a GET to the token endpoint, a POST to the push
    endpoint. *)
Inductive effect : Type :=
  | AppendFile (file : string) (entry : log_entry)
  | HttpGet (url : string) (authorization : string)
  | HttpPost (url : string) (payload : stk_payload) (authorization : string).

Definition world : Type := list effect.

(** A thrown [Error]: its [message] and, for an axios failure,
    [error.response?.data?.errorMessage]. *)
Record error : Type := {
  message : string;
  response_errorMessage : value
}.

Definition new_Error (msg : string) : error :=
  {| message := msg; response_errorMessage := VUndefined |}.

(** The outcome of an axios call, decided by the network and the provider. *)
Inductive http_result (A : Type) : Type :=
  | Responded (data : A)
  | Failed (err : error).
Arguments Responded {A} data.
Arguments Failed {A} err.

Record token_data : Type := {
  access_token : value
}.

Record stk_data : Type := {
  ResponseCode : value;
  CheckoutRequestID : value;
  ResponseDescription : value
}.

(** What a handler reads from its environment: the clock at the two
    [new Date()], whether [fs.appendFileSync] throws (and with what), and
    the outcomes of the two axios calls. *)
Record env : Type := {
  log_time : Z;
  push_time : Z;
  append_failure : option error;
  auth_result : http_result token_data;
  push_result : http_result stk_data
}.

(** Computations that act on the world and return or throw. *)
Inductive outcome (A : Type) : Type :=
  | Return (a : A)
  | Throw (err : error).
Arguments Return {A} a.
Arguments Throw {A} err.

Definition M (A : Type) : Type := world -> outcome A * world.

Definition ret {A : Type} (a : A) : M A := fun w => (Return a, w).

Definition throw {A : Type} (err : error) : M A := fun w => (Throw err, w).

Definition bind {A B : Type} (m : M A) (k : A -> M B) : M B :=
  fun w =>
    match m w with
    | (Return a, w') => k a w'
    | (Throw err, w') => (Throw err, w')
    end.

Definition try_catch {A : Type} (m : M A) (handler : error -> M A) : M A :=
  fun w =>
    match m w with
    | (Return a, w') => (Return a, w')
    | (Throw err, w') => handler err w'
    end.

Definition perform (ef : effect) : M unit := fun w => (Return tt, w ++ [ef]).

Notation "'let*' x ':=' m 'in' k" := (bind m (fun x => k))
  (at level 10, x name, m at level 100, k at level 200).
Notation "m ';;' k" := (bind m (fun _ => k))
  (at level 100, k at level 200, right associativity).

(** [writeLog(type, data)] *)
Definition writeLog (e : env) (type : string) (data : log_data) : M unit :=
  let timestamp := toISOString (log_time e) in
  let logFile := "logs/" +:+ type +:+ "_log.json" in
  let logEntry := {| timestamp := timestamp; entry_data := data |} in
  match append_failure e with
  | Some err => throw err
  | None => perform (AppendFile logFile logEntry)
  end.

(** [error.response?.data?.errorMessage || error.message], interpolated. *)
Definition error_text (err : error) : string :=
  if ToBoolean (response_errorMessage err)
  then ToString (response_errorMessage err)
  else message err.

(** [getAccessToken()] *)
Definition getAccessToken (c : config) (e : env) : M value :=
  let endpoints := getEndpoints c in
  let auth_header := base64 (consumerKey c +:+ ":" +:+ consumerSecret c) in
  try_catch
    (perform (HttpGet (auth endpoints) ("Basic " +:+ auth_header)) ;;
     match auth_result e with
     | Failed err => throw err
     | Responded data =>
         if negb (ToBoolean (access_token data))
         then throw (new_Error "Failed to obtain access token")
         else ret (access_token data)
     end)
    (fun err =>
       throw (new_Error ("Authentication failed: " +:+ error_text err))).

(** [new Date().toISOString().replace(/[-:]/g, '').split('.')[0]] *)
Definition make_timestamp (t : Z) : string :=
  split_first "."
    (replace_all (Class ["-"%char; ":"%char]) "" (toISOString t)).

(** The [payload] object [initiateSTKPush] builds at time [t]. *)
Definition make_payload (c : config) (t : Z) (phone : value)
    (amount : number) : stk_payload :=
  let timestamp := make_timestamp t in
  let password := base64 (shortcode c +:+ passkey c +:+ timestamp) in
  {| BusinessShortCode := shortcode c;
     Password := password;
     Timestamp := timestamp;
     TransactionType := "CustomerBuyGoodsOnline";
     Amount := amount;
     PartyA := phone;
     PartyB := shortcode c;
     PhoneNumber := phone;
     CallBackURL := callbackURL c;
     AccountReference := accountRef c;
     TransactionDesc := "HELB Disbursement" |}.

(** [initiateSTKPush(accessToken, phone, amount)] *)
Definition initiateSTKPush (c : config) (e : env) (accessToken phone : value)
    (amount : number) : M stk_data :=
  let endpoints := getEndpoints c in
  let payload := make_payload c (push_time e) phone amount in
  try_catch
    (perform
       (HttpPost (stkPush endpoints) payload
          ("Bearer " +:+ ToString accessToken)) ;;
     match push_result e with
     | Failed err => throw err
     | Responded data => ret data
     end)
    (fun err => throw (new_Error ("STK push failed: " +:+ error_text err))).

(** [{ phone, amount }] of the request body; an absent field is
    [VUndefined]. *)
Record body : Type := {
  b_phone : value;
  b_amount : value
}.

(** The objects passed to [res.json]. *)
Inductive reply : Type :=
  | StkOk (checkout_id response_code : value) (msg : string)
  | StkError (err : value)
  | Ack (ResultCode : Z) (ResultDesc : string).

Record response : Type := {
  http_status : Z;
  json : reply
}.

Definition respond (st : Z) (r : reply) : M response :=
  ret {| http_status := st; json := r |}.

(** [/^2547\d{8}$/] *)
Definition phone_pattern : regex :=
  Seq Bol
    (Seq (Chr "2") (Seq (Chr "5") (Seq (Chr "4") (Seq (Chr "7")
       (Seq (Rep Digit 8 8) Eol))))).

Definition missing_error : string := "Missing phone or amount".

Definition phone_error : string :=
  "Invalid phone format. Use format: 2547XXXXXXXX".

Definition amount_error : string :=
  "Invalid amount. Must be between 1 and 150,000".

(** The three conditions under which the handler answers 400. *)
Definition missing_field (b : body) : bool :=
  negb (ToBoolean (b_phone b)) || negb (ToBoolean (b_amount b)).

Definition phone_bad (phone : value) : bool :=
  negb (test phone_pattern (ToString phone)).

Definition amount_bad (amountNum : number) : bool :=
  isNaN (VNumber amountNum)
  || le amountNum (Fin 0)
  || gt amountNum (Fin 150000).

(** [x || d] on values. *)
Definition or_else (x d : value) : value := if ToBoolean x then x else d.

(** [x === '0'] *)
Definition is_string_0 (x : value) : bool :=
  match x with
  | VString s => String.eqb s "0"
  | _ => false
  end.

(** [POST /stk_push] *)
Definition stk_push (c : config) (e : env) (b : body) : M response :=
  try_catch
    (let phone := b_phone b in
     let amount := b_amount b in
     if missing_field b then respond 400 (StkError (VString missing_error))
     else if phone_bad phone then respond 400 (StkError (VString phone_error))
     else
       let amountNum := parseInt amount in
       if amount_bad amountNum
       then respond 400 (StkError (VString amount_error))
       else
         writeLog e "request" (RequestData phone amountNum) ;;
         let* accessToken := getAccessToken c e in
         let* stkResponse :=
           initiateSTKPush c e accessToken phone amountNum in
         if is_string_0 (ResponseCode stkResponse) then
           respond 200
             (StkOk (CheckoutRequestID stkResponse)
                (ResponseCode stkResponse) "STK push initiated successfully")
         else
           respond 500
             (StkError
                (or_else (ResponseDescription stkResponse)
                   (VString "STK push failed"))))
    (fun err => respond 500 (StkError (VString (message err)))).

(** [POST /callback] *)
Definition callback (e : env) (ip : string) (callbackData : option json_doc)
    : M response :=
  try_catch
    (writeLog e "callback" (CallbackData ip callbackData) ;;
     respond 200 (Ack 0 "Callback received successfully"))
    (fun err => respond 500 (Ack 1 "Error processing callback")).

(** The request passes the three checks. *)
Definition accepted (b : body) : bool :=
  negb (missing_field b)
  && negb (phone_bad (b_phone b))
  && negb (amount_bad (parseInt (b_amount b))).

(** The message of the first check that fails, in the order the handler
    makes them. *)
Definition first_error (b : body) : string :=
  if missing_field b then missing_error
  else if phone_bad (b_phone b) then phone_error
  else amount_error.

(** The errors a reply reports. *)
Definition reported (r : reply) : list value :=
  match r with
  | StkError err => [err]
  | _ => []
  end.

(** The effect is a request to the provider. *)
Definition contacts_provider (ef : effect) : bool :=
  match ef with
  | HttpGet _ _ | HttpPost _ _ _ => true
  | AppendFile _ _ => false
  end.

(** The response a handler ends with, if it does not throw. *)
Definition returned {A : Type} (r : outcome A * world) : option A :=
  match fst r with
  | Return a => Some a
  | Throw _ => None
  end.

(** An HTTP status of the 2xx class. *)
Definition success_status (st : Z) : bool := (200 <=? st) && (st <? 300).

End Index.

(** ** Sample inputs *)

Module Samples.
Import JS.

Definition config : Index.config :=
  {| Index.sandbox := true;
     Index.consumerKey := "key";
     Index.consumerSecret := "secret";
     Index.shortcode := "174379";
     Index.passkey := "passkey";
     Index.callbackURL := "http://localhost:3000/callback";
     Index.accountRef := "HELB Disbursement" |}.

Definition token : Index.http_result Index.token_data :=
  Index.Responded {| Index.access_token := VString "token" |}.

Definition accepted_push : Index.http_result Index.stk_data :=
  Index.Responded
    {| Index.ResponseCode := VString "0";
       Index.CheckoutRequestID := VString "ws_CO_1";
       Index.ResponseDescription := VString "Success" |}.

(** 2024-01-15T10:30:45.123Z *)
Definition clock : Z := 1705314645123.

Definition env : Index.env :=
  {| Index.log_time := clock;
     Index.push_time := clock;
     Index.append_failure := None;
     Index.auth_result := token;
     Index.push_result := accepted_push |}.

(** The same, with a log directory that cannot be written. *)
Definition env_disk_full : Index.env :=
  {| Index.log_time := clock;
     Index.push_time := clock;
     Index.append_failure := Some (Index.new_Error "ENOSPC: no space left on device");
     Index.auth_result := token;
     Index.push_result := accepted_push |}.

Definition push_body (phone amount : value) : Index.body :=
  {| Index.b_phone := phone; Index.b_amount := amount |}.

(** A random source that always draws index 0. *)
Definition server_env : Server.env :=
  {| Server.date_now := clock;
     Server.new_date := clock;
     Server.random := fun _ => 0%nat |}.

Definition pay_body (amount phone : value) : option Server.body :=
  Some {| Server.b_amount := amount;
          Server.b_phone := phone;
          Server.b_reference := VUndefined |}.

Definition valid_pay : option Server.body :=
  pay_body (VNumber (number_of_Z 100)) (VString "+254712345678").

(** The store after one accepted payment. *)
Definition after_one_pay : Server.world :=
  snd (Server.pay server_env valid_pay Server.initial).

(** The same random source one second later, and one that always draws
    index 1. *)
Definition server_env_later : Server.env :=
  {| Server.date_now := clock + 1000;
     Server.new_date := clock + 1000;
     Server.random := fun _ => 0%nat |}.

Definition server_env_other : Server.env :=
  {| Server.date_now := clock + 500;
     Server.new_date := clock + 500;
     Server.random := fun _ => 1%nat |}.

Definition first_timer : Server.timer :=
  {| Server.delay := Server.completion_delay;
     Server.timer_id := "AAAAAAAAAAAAAAAAAAAA" |}.

(** The store after a second accepted payment that drew the same id, one
    second after the first. *)
Definition after_two_pays : Server.world :=
  snd (Server.pay server_env_later valid_pay after_one_pay).

(** The state when the timer of the first payment has then fired, two
    seconds after the first payment. *)
Definition after_first_timer : Server.world :=
  {| Server.payments :=
       Server.on_timeout (clock + 2000) "AAAAAAAAAAAAAAAAAAAA"
         (Server.payments after_two_pays);
     Server.timers := [] ++ [first_timer] |}.

(** The store after a payment that drew another id, half a second after
    the first. *)
Definition after_other_pay : Server.world :=
  snd (Server.pay server_env_other valid_pay after_one_pay).

End Samples.
(** ** Notions used to state further properties *)

Module Notions.
Import JS.

(** The character is one of the 62 of [chars]. *)
Definition alphanumeric (c : ascii) : bool :=
  existsb (Ascii.eqb c) (chars_of Server.chars).

(** Position of the first occurrence of [c] in [s]. *)
Fixpoint index_of (c : ascii) (s : string) : nat :=
  match s with
  | String x r => if Ascii.eqb x c then O else S (index_of c r)
  | EmptyString => O
  end.

(** What the loop of [cryptoRandomId] appends from iteration [i] on. *)
Fixpoint id_tail (n i : nat) (draws : nat -> nat) : string :=
  match n with
  | O => EmptyString
  | S n' => Server.char_at (draws i) +:+ id_tail n' (S i) draws
  end.

(** The record an accepted payment request creates. *)
Definition created (e : Server.env) (b : Server.body) : Server.payment :=
  {| Server.id := Server.cryptoRandomId 20 (Server.random e);
     Server.amount := Number (Server.b_amount b);
     Server.phone := ToString (Server.b_phone b);
     Server.reference :=
       match Server.b_reference b with
       | VUndefined =>
           VString
             ("REF-" +:+
              ToString (VNumber (number_of_Z (Server.date_now e))))
       | r => r
       end;
     Server.status := "PENDING";
     Server.createdAt := toISOString (Server.new_date e);
     Server.completedAt := None |}.

(** The record with the completion the timer callback writes at [now]. *)
Definition completed (now : Z) (r : Server.payment) : Server.payment :=
  {| Server.id := Server.id r;
     Server.amount := Server.amount r;
     Server.phone := Server.phone r;
     Server.reference := Server.reference r;
     Server.status := "SUCCESS";
     Server.createdAt := Server.createdAt r;
     Server.completedAt := Some (toISOString now) |}.

(** The event is a payment request whose random draws spell the id [i]. *)
Definition redraws (i : string) (ev : Server.event) : Prop :=
  match ev with
  | Server.EPay e _ => Server.cryptoRandomId 20 (Server.random e) = i
  | _ => False
  end.

(** The fields no operation changes once a record is created. *)
Definition same_fixed_fields (r r' : Server.payment) : Prop :=
  Server.id r' = Server.id r
  /\ Server.amount r' = Server.amount r
  /\ Server.phone r' = Server.phone r
  /\ Server.reference r' = Server.reference r
  /\ Server.createdAt r' = Server.createdAt r.

(** The record is stored under its own id and holds validated data. *)
Definition well_formed_at (i : string) (r : Server.payment) : Prop :=
  Server.id r = i
  /\ gt (Server.amount r) (Fin 0) = true
  /\ test Server.phone_pattern (Server.phone r) = true
  /\ Server.reference r <> VUndefined.

(** A pending timer for the id [i], with the delay of the demo. *)
Definition timer_pending (i : string) (w : Server.world) : Prop :=
  In {| Server.delay := Server.completion_delay; Server.timer_id := i |}
     (Server.timers w).

(** The log line, the token request and the push request of an accepted
    [POST /stk_push]. *)
Definition log_effect (e : Index.env) (b : Index.body) : Index.effect :=
  Index.AppendFile "logs/request_log.json"
    {| Index.timestamp := toISOString (Index.log_time e);
       Index.entry_data :=
         Index.RequestData (Index.b_phone b) (parseInt (Index.b_amount b)) |}.

Definition token_effect (c : Index.config) : Index.effect :=
  Index.HttpGet (Index.auth (Index.getEndpoints c))
    ("Basic " +:+
     base64 (Index.consumerKey c +:+ ":" +:+ Index.consumerSecret c)).

Definition push_effect (c : Index.config) (e : Index.env) (b : Index.body)
    (tok : value) : Index.effect :=
  Index.HttpPost (Index.stkPush (Index.getEndpoints c))
    (Index.make_payload c (Index.push_time e) (Index.b_phone b)
       (parseInt (Index.b_amount b)))
    ("Bearer " +:+ ToString tok).

(** The token the provider handed out, if it did. *)
Definition token_of (e : Index.env) : option value :=
  match Index.auth_result e with
  | Index.Responded data =>
      if ToBoolean (Index.access_token data)
      then Some (Index.access_token data) else None
  | Index.Failed _ => None
  end.

(** The text of the error [getAccessToken] throws when no token is
    obtained. *)
Definition auth_failure_text (e : Index.env) : string :=
  match Index.auth_result e with
  | Index.Responded _ => "Authentication failed: Failed to obtain access token"
  | Index.Failed err => "Authentication failed: " +:+ Index.error_text err
  end.

(** The reply to a request that passed the checks, by what the log write,
    the token request and the push request do. *)
Definition accepted_reply (e : Index.env) : Index.response :=
  match Index.append_failure e with
  | Some err =>
      {| Index.http_status := 500;
         Index.json := Index.StkError (VString (Index.message err)) |}
  | None =>
      match token_of e with
      | None =>
          {| Index.http_status := 500;
             Index.json := Index.StkError (VString (auth_failure_text e)) |}
      | Some _ =>
          match Index.push_result e with
          | Index.Failed err =>
              {| Index.http_status := 500;
                 Index.json :=
                   Index.StkError
                     (VString
                        ("STK push failed: " +:+ Index.error_text err)) |}
          | Index.Responded data =>
              if Index.is_string_0 (Index.ResponseCode data) then
                {| Index.http_status := 200;
                   Index.json :=
                     Index.StkOk (Index.CheckoutRequestID data)
                       (Index.ResponseCode data)
                       "STK push initiated successfully" |}
              else
                {| Index.http_status := 500;
                   Index.json :=
                     Index.StkError
                       (Index.or_else (Index.ResponseDescription data)
                          (VString "STK push failed")) |}
          end
      end
  end.

(** The effects of a request that passed the checks. *)
Definition accepted_effects (c : Index.config) (e : Index.env)
    (b : Index.body) : list Index.effect :=
  match Index.append_failure e with
  | Some _ => []
  | None =>
      match token_of e with
      | None => [log_effect e b; token_effect c]
      | Some tok => [log_effect e b; token_effect c; push_effect c e b tok]
      end
  end.

(** The environment variable is absent or empty. *)
Definition unset (v : option string) : bool :=
  match v with
  | Some s => is_empty s
  | None => true
  end.

(** The payloads posted to the provider in a trace. *)
Definition posted (w : Index.world) : list Index.stk_payload :=
  flat_map
    (fun ef =>
       match ef with
       | Index.HttpPost _ p _ => [p]
       | _ => []
       end) w.

(** Time values whose UTC year is between 0000 and 9999. *)
Definition four_digit_year (t : Z) : Prop :=
  -62167219200000 <= t <= 253402300799999.

(** The eight digits of the UTC date of [t] and the six of its time. *)
Definition date_digits (t : Z) : string :=
  let day := Day t in
  let y := YearFromDay day in
  let '(m, d) := MonthAndDate (day - DayFromYear y) (InLeapYear y) in
  pad 4 y +:+ pad 2 (m + 1) +:+ pad 2 d.

Definition time_digits (t : Z) : string :=
  let tw := TimeWithinDay t in
  pad 2 (tw / 3600000) +:+ pad 2 (tw / 60000 mod 60) +:+
  pad 2 (tw / 1000 mod 60).

(** [forallb] over the integers [lo], [lo + 1], ..., [lo + n - 1]. *)
Fixpoint all_from (p : Z -> bool) (lo : Z) (n : nat) : bool :=
  match n with
  | O => true
  | S k => p lo && all_from p (lo + 1) k
  end.

End Notions.

(** ** Facts about server.js *)

Module ServerFacts.
Import JS Server.

Lemma pay_cases e b w :
  (validate (b_amount (body_or_empty b)) (b_phone (body_or_empty b)) <> []
   /\ pay e b w =
      ({| http_status := 400;
          json := Errors (validate (b_amount (body_or_empty b))
                            (b_phone (body_or_empty b))) |}, w))
  \/ (validate (b_amount (body_or_empty b)) (b_phone (body_or_empty b)) = []
      /\ exists r,
           id r = cryptoRandomId 20 (random e)
           /\ status r = "PENDING" /\ completedAt r = None
           /\ pay e b w =
              ({| http_status := 200; json := OkPayment r |},
               {| payments := <[id r := r]> (payments w);
                  timers := timers w ++
                    [{| delay := completion_delay; timer_id := id r |}] |})).
Proof.
  unfold pay.
  destruct (validate _ _) as [|m ms] eqn:Hv.
  - right. split; [reflexivity|].
    eexists (Build_payment _ _ _ _ _ _ _). repeat split; reflexivity.
  - left. split; [discriminate|]. reflexivity.
Qed.

Lemma on_timeout_lookup now i ps r :
  ps !! i = Some r ->
  exists r', on_timeout now i ps !! i = Some r'
             /\ status r' = "SUCCESS"
             /\ completedAt r' = Some (toISOString now).
Proof.
  intros H. unfold on_timeout. rewrite H.
  eexists. rewrite lookup_insert_eq. repeat split; reflexivity.
Qed.

Lemma on_timeout_other now i j ps :
  i <> j -> on_timeout now i ps !! j = ps !! j.
Proof.
  intros Hne. unfold on_timeout.
  destruct (ps !! i); [|reflexivity]. by rewrite lookup_insert_ne.
Qed.

Lemma on_timeout_dom now i j ps :
  is_Some (ps !! j) -> is_Some (on_timeout now i ps !! j).
Proof.
  intros Hj. destruct (decide (i = j)) as [->|Hne].
  - destruct Hj as [r Hr].
    destruct (on_timeout_lookup now j ps r Hr) as (r' & Hr' & _). eauto.
  - by rewrite on_timeout_other.
Qed.

Lemma step_store_ok w ev w' : step w ev w' -> store_ok w -> store_ok w'.
Proof.
  intros Hs Hok. destruct Hs as [e b w|i w|now d i before after w Ht].
  - destruct (pay_cases e b w) as [[_ ->]|[_ (r & _ & Hst & Hc & ->)]];
      simpl; [exact Hok|].
    intros j r' Hj. simpl in Hj.
    destruct (decide (id r = j)) as [<-|Hne].
    + rewrite lookup_insert_eq in Hj. injection Hj as <-. left. by split.
    + rewrite lookup_insert_ne in Hj by done. by eapply Hok.
  - unfold get_status. by destruct (payments w !! i).
  - intros j r' Hj. simpl in Hj.
    destruct (decide (i = j)) as [<-|Hne].
    + destruct (payments w !! i) as [r|] eqn:Hi.
      * destruct (on_timeout_lookup now i _ r Hi) as (r2 & Hr2 & Hs2 & Hc2).
        rewrite Hr2 in Hj. injection Hj as <-. right. split; [done|].
        rewrite Hc2. eauto.
      * unfold on_timeout in Hj. rewrite Hi in Hj. congruence.
    + rewrite on_timeout_other in Hj by done. by eapply Hok.
Qed.

Lemma step_timers_ok w ev w' : step w ev w' -> timers_ok w -> timers_ok w'.
Proof.
  intros Hs Hok. destruct Hs as [e b w|i w|now d i before after w Ht].
  - destruct (pay_cases e b w) as [[_ ->]|[_ (r & _ & _ & _ & ->)]];
      simpl; [exact Hok|].
    intros t Ht. simpl in *. apply in_app_or in Ht as [Ht|Ht].
    + destruct (decide (id r = timer_id t)) as [<-|Hne].
      * rewrite lookup_insert_eq. eauto.
      * rewrite lookup_insert_ne by done. by apply Hok.
    + destruct Ht as [<-|[]]. simpl. rewrite lookup_insert_eq. eauto.
  - unfold get_status. by destruct (payments w !! i).
  - intros t Hin. simpl in *. apply on_timeout_dom. apply Hok.
    rewrite Ht. apply in_app_or in Hin as [Hin|Hin]; apply in_or_app;
      [by left|right; by right].
Qed.

Lemma initial_ok : store_ok initial /\ timers_ok initial.
Proof.
  split.
  - intros i r H. simpl in H. by rewrite lookup_empty in H.
  - intros t [].
Qed.

Lemma run_ok w0 evs w :
  run_from w0 evs w -> store_ok w0 /\ timers_ok w0 ->
  store_ok w /\ timers_ok w.
Proof.
  induction 1 as [|evs w ev w' Hrun IH Hstep]; intros H0; [exact H0|].
  destruct (IH H0) as [Hs Ht].
  split; [by eapply step_store_ok|by eapply step_timers_ok].
Qed.

Lemma reachable_ok w : reachable w -> store_ok w /\ timers_ok w.
Proof. intros [evs Hrun]. eapply run_ok; [exact Hrun|apply initial_ok]. Qed.

Lemma record_ok_terminal r :
  record_ok r -> (is_Some (completedAt r) <-> terminal (status r) = true).
Proof.
  intros [[Hs Hc]|[Hs Hc]]; rewrite Hs; split; intros H; try done.
  rewrite Hc in H. by destruct H.
Qed.

Lemma step_keeps_pending i w ev w' :
  step w ev w' -> ~ fires i ev -> pending_at i w -> pending_at i w'.
Proof.
  intros Hs Hf Hp. destruct Hs as [e b w|j w|now d j before after w Ht].
  - destruct (pay_cases e b w) as [[_ ->]|[_ (r & _ & Hst & Hc & ->)]];
      simpl; [exact Hp|].
    unfold pending_at. simpl.
    destruct (decide (id r = i)) as [<-|Hne].
    + exists r. by rewrite lookup_insert_eq.
    + rewrite lookup_insert_ne by done. exact Hp.
  - unfold get_status. by destruct (payments w !! j).
  - simpl in Hf. unfold pending_at. simpl.
    rewrite on_timeout_other by done. exact Hp.
Qed.

Lemma run_keeps_pending i w0 evs w :
  run_from w0 evs w -> Forall (fun ev => ~ fires i ev) evs ->
  pending_at i w0 -> pending_at i w.
Proof.
  induction 1 as [|evs w ev w' Hrun IH Hstep]; intros Hall Hp; [exact Hp|].
  inversion Hall; subst.
  eapply step_keeps_pending; eauto.
Qed.

End ServerFacts.
(** ** Facts about the built-ins *)

Module JSFacts.
Import JS.

Lemma nonempty_app {A : Type} (l1 l2 : list A) :
  nonempty (l1 ++ l2) = nonempty l1 || nonempty l2.
Proof. by destruct l1, l2. Qed.

Lemma matches_at_nonempty r st : matches_at r st = nonempty (run r st).
Proof. reflexivity. Qed.

Lemma run_eol st : run Eol st = if at_end st then [st] else [].
Proof. destruct st as [p [|x t]]; reflexivity. Qed.

Lemma nonempty_flat_map_eol (sts : list mstate) :
  nonempty (flat_map (run Eol) sts) = existsb at_end sts.
Proof.
  induction sts as [|st sts IH]; [reflexivity|].
  cbn [flat_map existsb]. rewrite nonempty_app, IH, run_eol.
  by destruct (at_end st).
Qed.

Lemma existsb_at_end_app (l1 l2 : list mstate) :
  existsb at_end (l1 ++ l2) = existsb at_end l1 || existsb at_end l2.
Proof. apply existsb_app. Qed.

Lemma run_digit p l :
  run Digit (p, l) =
  match l with
  | x :: t => if is_digit x then [(S p, t)] else []
  | [] => []
  end.
Proof. by destruct l. Qed.

(** After at most [e] more digits the input is exhausted iff it is made of
    at most [e] digits. *)
Lemma upto_digits_end e : forall p l,
  existsb at_end (repeat_upto (run Digit) e (p, l)) =
  forallb is_digit l && (length l <=? e)%nat.
Proof.
  induction e as [|e IH]; intros p l.
  - destruct l as [|x t]; [reflexivity|].
    cbn [repeat_upto existsb at_end snd length Nat.leb orb].
    by rewrite andb_false_r.
  - cbn [repeat_upto]. rewrite existsb_at_end_app, run_digit.
    destruct l as [|x t]; [reflexivity|].
    cbn [forallb length]. destruct (is_digit x); cbn [flat_map].
    + rewrite app_nil_r, IH. cbn. by rewrite orb_false_r.
    + reflexivity.
Qed.

(** [\d{lo,lo+e}] followed by the end of input. *)
Lemma rep_digits_end lo e : forall p l,
  existsb at_end (repeat_run (run Digit) lo e (p, l)) =
  forallb is_digit l && (lo <=? length l)%nat && (length l <=? lo + e)%nat.
Proof.
  induction lo as [|lo IH]; intros p l.
  - cbn [repeat_run]. rewrite upto_digits_end. cbn. by rewrite andb_true_r.
  - cbn [repeat_run]. rewrite run_digit.
    destruct l as [|x t]; [reflexivity|].
    cbn [forallb length]. destruct (is_digit x); cbn [flat_map].
    + rewrite app_nil_r, IH. reflexivity.
    + reflexivity.
Qed.

Lemma matches_rep_digits_eol lo hi p l :
  (lo <= hi)%nat ->
  matches_at (Seq (Rep Digit lo hi) Eol) (p, l) =
  forallb is_digit l && (lo <=? length l)%nat && (length l <=? hi)%nat.
Proof.
  intros Hle. unfold matches_at. cbn [run].
  change (nonempty (flat_map (run Eol)
            (repeat_run (run Digit) lo (hi - lo) (p, l))) = 
          forallb is_digit l && (lo <=? length l)%nat && (length l <=? hi)%nat).
  rewrite nonempty_flat_map_eol, rep_digits_end.
  by replace (lo + (hi - lo))%nat with hi by lia.
Qed.

(** A pattern that starts with [^] matches at offset 0 or nowhere. *)
Lemma search_bol r l : forall p, search (Seq Bol r) (S p) l = false.
Proof.
  induction l as [|x t IH]; intros p; cbn [search]; unfold matches_at;
    cbn [run fst flat_map]; [reflexivity|]. apply IH.
Qed.

Lemma test_bol r s :
  test (Seq Bol r) s = matches_at r (0%nat, list_ascii_of_string s).
Proof.
  unfold test. destruct (list_ascii_of_string s) as [|x t]; cbn [search].
  - unfold matches_at. cbn [run fst flat_map]. rewrite app_nil_r.
    by rewrite orb_false_r.
  - rewrite search_bol, orb_false_r.
    unfold matches_at. cbn [run fst flat_map]. by rewrite app_nil_r.
Qed.

Lemma matches_chr_seq c r p l :
  matches_at (Seq (Chr c) r) (p, l) =
  match l with
  | x :: t => Ascii.eqb c x && matches_at r (S p, t)
  | [] => false
  end.
Proof.
  unfold matches_at. cbn [run]. unfold eat. cbn [snd fst].
  destruct l as [|x t]; [reflexivity|].
  destruct (Ascii.eqb c x); cbn [flat_map andb]; [|reflexivity].
  by rewrite app_nil_r.
Qed.

Lemma matches_opt_chr_seq c r p l :
  matches_at (Seq (Opt (Chr c)) r) (p, l) =
  matches_at (Seq (Chr c) r) (p, l) || matches_at r (p, l).
Proof.
  rewrite !matches_at_nonempty. cbn [run].
  rewrite flat_map_app, nonempty_app.
  cbn [flat_map]. by rewrite app_nil_r.
Qed.

Lemma length_list_ascii s :
  length (list_ascii_of_string s) = String.length s.
Proof. induction s as [|c s IH]; [reflexivity|]. cbn. by rewrite IH. Qed.

Lemma matches_digits_eol lo hi p s :
  (lo <= hi)%nat ->
  matches_at (Seq (Rep Digit lo hi) Eol) (p, list_ascii_of_string s) =
  digits_ok lo hi s.
Proof.
  intros Hle. rewrite matches_rep_digits_eol by exact Hle.
  unfold digits_ok, all_digits. by rewrite length_list_ascii.
Qed.

(** [/^\+?\d{7,15}$/] accepts an optional [+] and then 7 to 15 digits. *)
Lemma generic_phone_test s :
  test Server.phone_pattern s =
  match s with
  | String x t => (Ascii.eqb "+" x && digits_ok 7 15 t) || digits_ok 7 15 s
  | EmptyString => false
  end.
Proof.
  unfold Server.phone_pattern. rewrite test_bol, matches_opt_chr_seq.
  rewrite matches_chr_seq.
  rewrite (matches_digits_eol 7 15 0 s) by lia.
  destruct s as [|x t]; [reflexivity|].
  cbn [list_ascii_of_string].
  by rewrite (matches_digits_eol 7 15 1 t) by lia.
Qed.

(** [/^2547\d{8}$/] accepts 2547 and then 8 digits. *)
Lemma provider_phone_test s :
  test Index.phone_pattern s =
  match s with
  | String a (String b (String c (String d ds))) =>
      Ascii.eqb "2" a && Ascii.eqb "5" b && Ascii.eqb "4" c
      && Ascii.eqb "7" d && digits_ok 8 8 ds
  | _ => false
  end.
Proof.
  unfold Index.phone_pattern. rewrite test_bol.
  destruct s as [|a [|b [|c [|d ds]]]]; cbn [list_ascii_of_string];
    rewrite ?matches_chr_seq; rewrite ?andb_false_r; try reflexivity.
  rewrite (matches_digits_eol 8 8 4 ds) by lia.
  by rewrite !andb_assoc.
Qed.

Lemma digits_ok_spec lo hi s :
  digits_ok lo hi s = true <->
  all_digits s = true /\ (lo <= String.length s <= hi)%nat.
Proof.
  unfold digits_ok. rewrite !andb_true_iff, !Nat.leb_le. tauto.
Qed.

Lemma generic_phone_shape s :
  test Server.phone_pattern s = true <->
  exists ds, (s = ds \/ s = String "+" ds)
             /\ all_digits ds = true /\ (7 <= String.length ds <= 15)%nat.
Proof.
  rewrite generic_phone_test. split.
  - destruct s as [|x t]; [discriminate|].
    rewrite orb_true_iff, andb_true_iff, Ascii.eqb_eq, !digits_ok_spec.
    intros [[<- Ht]|Hs]; [exists t|exists (String x t)]; tauto.
  - intros (ds & [->| ->] & Hd & Hlen).
    + destruct ds as [|x t]; [cbn in Hlen; lia|].
      apply orb_true_iff. right. by apply digits_ok_spec.
    + apply orb_true_iff. left. rewrite Ascii.eqb_refl.
      by apply digits_ok_spec.
Qed.

Lemma provider_phone_shape s :
  test Index.phone_pattern s = true <->
  exists ds, s = "2547" +:+ ds
             /\ all_digits ds = true /\ String.length ds = 8%nat.
Proof.
  rewrite provider_phone_test. split.
  - destruct s as [|a [|b [|c [|d ds]]]]; try discriminate.
    rewrite !andb_true_iff, !Ascii.eqb_eq, digits_ok_spec.
    intros ((((<- & <-) & <-) & <-) & Hd & Hlen).
    exists ds. repeat split; [tauto|lia].
  - intros (ds & -> & Hd & Hlen).
    change (digits_ok 8 8 ds = true).
    apply digits_ok_spec. split; [done|lia].
Qed.

End JSFacts.
(** ** Facts about numbers, [parseInt] and the two amount checks *)

Module NumberFacts.
Import JS.

Lemma not_positive x :
  number_isNaN x || le x (Fin 0) = negb (gt x (Fin 0)).
Proof.
  destruct x as [|[]|q]; try reflexivity.
  cbn. by rewrite negb_involutive.
Qed.

(** An integer beyond 2^53 rounds to a number of at least 2^53, or
    overflows. *)
Lemma round_pos_big n :
  2 ^ 53 < Zpos n ->
  round_pos n 1 = Inf false
  \/ exists q, round_pos n 1 = Fin q /\ (inject_Z (2 ^ 53) <= q)%Q.
Proof.
  intros Hbig. unfold round_pos.
  change (Z.log2 1) with 0. rewrite Z.sub_0_r.
  set (b := Z.log2 (Z.pos n)).
  assert (Hb : 53 <= b) by (apply Z.log2_le_pow2; lia).
  assert (Hspec : 2 ^ b <= Z.pos n) by (apply Z.log2_spec; lia).
  replace (0 <=? b) with true by (symmetry; apply Z.leb_le; lia).
  replace (1 * 2 ^ b <=? Z.pos n) with true
    by (symmetry; apply Z.leb_le; lia).
  set (e := Z.max (b - 52) (-1074)).
  assert (He : e = b - 52) by (unfold e; lia).
  replace (Z.max (- e) 0) with 0 by lia.
  replace (Z.max e 0) with e by lia.
  rewrite Z.pow_0_r, Z.mul_1_r, Z.mul_1_l.
  set (qt := Z.pos n / 2 ^ e).
  assert (Hqt : 2 ^ 52 <= qt).
  { unfold qt. apply Z.div_le_lower_bound; [apply Z.pow_pos_nonneg; lia|].
    rewrite <- Z.pow_add_r by lia. replace (e + 52) with b by lia. exact Hspec. }
  set (m := if 2 * (Z.pos n mod 2 ^ e) <? 2 ^ e then qt
            else if 2 ^ e <? 2 * (Z.pos n mod 2 ^ e) then qt + 1
            else if Z.even qt then qt else qt + 1).
  assert (Hm : 2 ^ 52 <= m).
  { unfold m. repeat match goal with |- context [if ?c then _ else _] =>
      destruct c end; lia. }
  destruct (971 <? e); [by left|].
  destruct ((e =? 971) && (2 ^ 53 <=? m)); [by left|].
  right. eexists. split; [reflexivity|].
  rewrite Qred_correct. unfold pow2Q.
  replace (0 <=? e) with true by (symmetry; apply Z.leb_le; lia).
  rewrite <- inject_Z_mult. rewrite <- Zle_Qle.
  assert (2 <= 2 ^ e).
  { change 2 with (2 ^ 1) at 1. apply Z.pow_le_mono_r; lia. }
  change (2 ^ 53) with (2 ^ 52 * 2). apply Z.mul_le_mono_nonneg; lia.
Qed.

Lemma Qle_bool_false p q : (q < p)%Q -> Qle_bool p q = false.
Proof.
  intros Hlt. destruct (Qle_bool p q) eqn:H; [|reflexivity].
  apply Qle_bool_iff in H. exfalso. eapply Qlt_not_le; eauto.
Qed.

Lemma Qle_bool_true p q : (p <= q)%Q -> Qle_bool p q = true.
Proof. apply Qle_bool_iff. Qed.

Lemma is_digit_cases c :
  is_digit c = true ->
  c = "0"%char \/ c = "1"%char \/ c = "2"%char \/ c = "3"%char
  \/ c = "4"%char \/ c = "5"%char \/ c = "6"%char \/ c = "7"%char
  \/ c = "8"%char \/ c = "9"%char.
Proof.
  destruct c as [[] [] [] [] [] [] [] []]; intros H;
    try (vm_compute in H; discriminate); tauto.
Qed.

Lemma radix10_digit x :
  is_digit x = true -> radix_val 10 x = Some (digit_val x).
Proof.
  intros H. destruct (is_digit_cases x H) as [->|[->|[->|[->|[->|[->|[->|[->|
    [->| ->]]]]]]]]]; reflexivity.
Qed.

Lemma radix10_other x : is_digit x = false -> radix_val 10 x = None.
Proof.
  unfold radix_val, hex_val, is_digit. intros ->.
  destruct ((97 <=? code x) && (code x <=? 102)) eqn:H1.
  - apply andb_true_iff in H1 as [H1 H2].
    apply Z.leb_le in H1, H2.
    replace (code x - 87 <? 10) with false
      by (symmetry; apply Z.ltb_ge; lia). reflexivity.
  - destruct ((65 <=? code x) && (code x <=? 70)) eqn:H2; [|reflexivity].
    apply andb_true_iff in H2 as [H2 H3].
    apply Z.leb_le in H2, H3.
    replace (code x - 55 <? 10) with false
      by (symmetry; apply Z.ltb_ge; lia). reflexivity.
Qed.

(** Reading digits stops where the digits stop. *)
Lemma radix_value_prefix rest : forall ds acc,
  all_digits ds = true -> no_leading_digit rest = true ->
  radix_value 10 acc (ds +:+ rest) = radix_value 10 acc ds.
Proof.
  intros ds acc Hd Hrest. revert acc.
  induction ds as [|x t IH]; intros acc.
  - change (EmptyString +:+ rest) with rest.
    destruct rest as [|y r]; [reflexivity|].
    cbn [radix_value]. cbn in Hrest. apply negb_true_iff in Hrest.
    by rewrite radix10_other.
  - unfold all_digits in Hd. cbn in Hd.
    apply andb_true_iff in Hd as [Hx Ht].
    change (String x t +:+ rest) with (String x (t +:+ rest)).
    cbn [radix_value]. rewrite radix10_digit by exact Hx. by apply IH.
Qed.

Lemma trim_start_digit c s :
  is_digit c = true -> trim_start (String c s) = String c s.
Proof.
  intros H. unfold trim_start. cbn [list_ascii_of_string].
  rewrite <- (string_of_list_ascii_of_string s) at 2.
  change (String c (string_of_list_ascii (list_ascii_of_string s)))
    with (string_of_list_ascii (c :: list_ascii_of_string s)).
  f_equal.
  destruct (is_digit_cases c H) as [->|[->|[->|[->|[->|[->|[->|[->|
    [->| ->]]]]]]]]];
    destruct (list_ascii_of_string s) as [|b [|d r]]; reflexivity.
Qed.

(** [parseInt] of digits (not starting with 0) followed by anything that
    does not start with a digit is the value of the digits. *)
Lemma parseInt_digit_prefix c ds rest :
  is_digit c = true -> c <> "0"%char -> all_digits ds = true ->
  no_leading_digit rest = true ->
  parseInt_Z (String c ds +:+ rest) = Some (radix_value 10 0 (String c ds)).
Proof.
  intros Hc H0 Hds Hrest.
  assert (Hall : all_digits (String c ds) = true).
  { unfold all_digits in *. cbn. by rewrite Hc, Hds. }
  rewrite <- (radix_value_prefix rest (String c ds) 0 Hall Hrest).
  unfold parseInt_Z.
  change (String c ds +:+ rest) with (String c (ds +:+ rest)).
  rewrite trim_start_digit by exact Hc.
  destruct (is_digit_cases c Hc) as [->|[->|[->|[->|[->|[->|[->|[->|
    [->| ->]]]]]]]]]; try done;
    cbv beta iota zeta; rewrite radix10_digit by reflexivity;
    by rewrite Z.mul_1_l.
Qed.

(** Outside [-2^53, 2^53] an integer is not accepted as an amount. *)
Lemma number_of_Z_big k :
  2 ^ 53 < Z.abs k -> Index.amount_bad (number_of_Z k) = true.
Proof.
  intros Hbig. unfold number_of_Z.
  replace (Z.abs k <=? 2 ^ 53) with false by (symmetry; apply Z.leb_gt; lia).
  unfold round_double, Index.amount_bad. cbn [inject_Z Qnum Qden].
  destruct k as [|n|n]; [cbn in Hbig; lia| |].
  - destruct (round_pos_big n Hbig) as [->|(q & -> & Hq)]; [reflexivity|].
    cbn. rewrite (Qle_bool_false q 150000), orb_true_r; [reflexivity|].
    eapply Qlt_le_trans; [|exact Hq]. reflexivity.
  - destruct (round_pos_big n Hbig) as [->|(q & -> & Hq)]; [reflexivity|].
    cbn. rewrite Qred_correct. rewrite (Qle_bool_true (- q) 0); [reflexivity|].
    apply Qopp_le_compat in Hq. eapply Qle_trans; [exact Hq|]. discriminate.
Qed.

Lemma number_of_Z_small k :
  Z.abs k <= 2 ^ 53 ->
  Index.amount_bad (number_of_Z k) = negb ((1 <=? k) && (k <=? 150000)).
Proof.
  intros Hs. unfold number_of_Z.
  replace (Z.abs k <=? 2 ^ 53) with true by (symmetry; apply Z.leb_le; lia).
  unfold Index.amount_bad. cbn. unfold Qle_bool. cbn.
  rewrite !Z.mul_1_r.
  destruct (k <=? 0) eqn:H0, (k <=? 150000) eqn:H1, (1 <=? k) eqn:H2;
    try reflexivity; lia.
Qed.

(** The provider profile accepts an amount exactly when [parseInt] reads an
    integer between 1 and 150000 from it. *)
Lemma provider_amount_range a :
  Index.amount_bad (parseInt a) = false <->
  exists k, parseInt_Z (ToString a) = Some k /\ 1 <= k <= 150000.
Proof.
  unfold parseInt, parseInt_string.
  destruct (parseInt_Z (ToString a)) as [k|]; split.
  - intros Hok. exists k. split; [reflexivity|].
    destruct (Z_le_gt_dec (Z.abs k) (2 ^ 53)) as [Hs|Hb].
    + rewrite number_of_Z_small in Hok by exact Hs.
      apply negb_false_iff, andb_true_iff in Hok. lia.
    + rewrite number_of_Z_big in Hok by lia. discriminate.
  - intros (k' & [= <-] & Hk).
    rewrite number_of_Z_small by lia.
    apply negb_false_iff, andb_true_iff. lia.
  - discriminate.
  - intros (k & [=] & _).
Qed.

(** An accepted amount is forwarded as the integer [parseInt] read. *)
Lemma provider_amount_value a k :
  parseInt_Z (ToString a) = Some k -> 1 <= k <= 150000 ->
  parseInt a = Fin (inject_Z k).
Proof.
  intros Hp Hk. unfold parseInt, parseInt_string, number_of_Z. rewrite Hp.
  by replace (Z.abs k <=? 2 ^ 53) with true by (symmetry; apply Z.leb_le; lia).
Qed.

(** The generic profile accepts an amount exactly when [Number] makes it
    a number greater than zero. *)
Lemma generic_amount_positive a :
  Server.amount_bad a = false <-> gt (Number a) (Fin 0) = true.
Proof.
  unfold Server.amount_bad, isNaN. cbn [ToNumber].
  rewrite <- orb_assoc, not_positive.
  destruct a; cbn [loosely_null orb Number ToNumber]; try reflexivity;
    rewrite ?negb_false_iff; try reflexivity.
  all: split; intros H; try discriminate.
Qed.

End NumberFacts.

(** ** The generic profile (server.js): claims *)

Module ServerClaims.
Import JS Server.

Lemma falsy_phone_rejected p :
  ToBoolean p = false -> test phone_pattern (ToString p) = false.
Proof.
  destruct p as [| |[]|[|s|q]|[|c s]]; cbn [ToBoolean]; try discriminate;
    try (intros _; reflexivity).
  intros H. apply negb_false_iff, Qeq_bool_iff in H.
  unfold Qeq in H. cbn in H. rewrite Z.mul_1_r in H.
  cbn [ToString number_to_string]. by rewrite H.
Qed.

Lemma phone_bad_test p :
  phone_bad p = negb (test phone_pattern (ToString p)).
Proof.
  unfold phone_bad. destruct (ToBoolean p) eqn:Hb; [reflexivity|].
  by rewrite falsy_phone_rejected.
Qed.

Lemma validate_nil amount phone :
  validate amount phone = [] <->
  gt (Number amount) (Fin 0) = true
  /\ test phone_pattern (ToString phone) = true.
Proof.
  rewrite <- NumberFacts.generic_amount_positive.
  unfold validate. rewrite phone_bad_test.
  destruct (amount_bad amount), (test phone_pattern (ToString phone));
    cbn; split; (intros [? ?] || intros ?); (done || split; done).
Qed.

Lemma string_length_app s1 s2 :
  String.length (s1 +:+ s2) = (String.length s1 + String.length s2)%nat.
Proof.
  induction s1 as [|c s1 IH]; [reflexivity|].
  change (S (String.length (s1 +:+ s2)) =
          S (String.length s1 + String.length s2)).
  by rewrite IH.
Qed.

Lemma char_at_in_range k :
  (k < 62)%nat ->
  exists c, String.get k chars = Some c /\ char_at k = String c EmptyString.
Proof.
  intros Hk. unfold char_at.
  do 62 (destruct k as [|k]; [eexists; split; reflexivity|]). lia.
Qed.

Lemma cryptoRandomId_loop_length draws n : forall i out,
  (forall j, (draws j < 62)%nat) ->
  String.length (cryptoRandomId_loop n i draws out) =
  (String.length out + n)%nat.
Proof.
  induction n as [|n IH]; intros i out Hd; cbn [cryptoRandomId_loop].
  - lia.
  - rewrite IH by exact Hd. rewrite string_length_app.
    destruct (char_at_in_range (draws i) (Hd i)) as (c & _ & ->). cbn. lia.
Qed.

(** With draws in range the id has [len] characters. *)
Lemma cryptoRandomId_length len draws :
  (forall j, (draws j < 62)%nat) ->
  String.length (cryptoRandomId len draws) = len.
Proof.
  intros Hd. unfold cryptoRandomId.
  by rewrite cryptoRandomId_loop_length.
Qed.

(** C4, as stated, fails: with a random source that repeats its draws, a
    second valid request is answered with the id of the first, which is
    already a key of the store. *)
Lemma C4_counterexample_id_reused :
  gt (Number (VNumber (number_of_Z 100))) (Fin 0) = true
  /\ test phone_pattern (ToString (VString "+254712345678")) = true
  /\ exists r0 r,
       json (fst (pay Samples.server_env Samples.valid_pay initial))
       = OkPayment r0
       /\ json (fst (pay Samples.server_env Samples.valid_pay
                       Samples.after_one_pay)) = OkPayment r
       /\ id r = id r0
       /\ is_Some (payments Samples.after_one_pay !! id r).
Proof.
  split; [reflexivity|]. split; [vm_compute; reflexivity|].
  destruct (ServerFacts.pay_cases Samples.server_env Samples.valid_pay initial)
    as [[Hbad _]|[_ (r0 & Hid0 & _ & _ & H0)]];
    [exfalso; apply Hbad; vm_compute; reflexivity|].
  destruct (ServerFacts.pay_cases Samples.server_env Samples.valid_pay
              Samples.after_one_pay)
    as [[Hbad _]|[_ (r & Hid & _ & _ & H1)]];
    [exfalso; apply Hbad; vm_compute; reflexivity|].
  exists r0, r. rewrite H0, H1. repeat split; [congruence|].
  unfold Samples.after_one_pay. rewrite H0. cbn [snd payments].
  replace (id r) with (id r0) by congruence.
  rewrite lookup_insert_eq. eauto.
Qed.

(** C4 (amended): a valid request ([Number(amount) > 0], phone matching the
    generic pattern) is answered 200 with [{ok: true, payment: record}];
    the record is PENDING with no [completedAt], its id is the one
    [cryptoRandomId] builds from the 20 random draws (20 characters when the
    draws are in range; it is not compared with the ids already issued),
    [getStatus] on that id returns exactly this record at once, and the
    records under other ids are untouched. *)
Theorem C4_initiate_creates_pending (e : env) (b : body) (w : world) :
  gt (Number (b_amount b)) (Fin 0) = true ->
  test phone_pattern (ToString (b_phone b)) = true ->
  exists r,
    fst (pay e (Some b) w) = {| http_status := 200; json := OkPayment r |}
    /\ status r = "PENDING" /\ completedAt r = None
    /\ id r = cryptoRandomId 20 (random e)
    /\ ((forall j, (random e j < 62)%nat) -> String.length (id r) = 20%nat)
    /\ get_status (id r) (snd (pay e (Some b) w))
       = ({| http_status := 200; json := OkPayment r |},
          snd (pay e (Some b) w))
    /\ forall j, j <> id r ->
         payments (snd (pay e (Some b) w)) !! j = payments w !! j.
Proof.
  intros Ha Hp.
  destruct (ServerFacts.pay_cases e (Some b) w)
    as [[Hbad _]|[_ (r & Hid & Hst & Hc & Hpay)]].
  - exfalso. apply Hbad. apply validate_nil. by split.
  - exists r. rewrite Hpay. cbn [fst snd]. repeat split; try done.
    + intros Hd. rewrite Hid. by apply cryptoRandomId_length.
    + unfold get_status. cbn [payments]. by rewrite lookup_insert_eq.
    + intros j Hj. cbn [payments]. by rewrite lookup_insert_ne.
Qed.

Lemma C4_witness :
  exists r,
    fst (pay Samples.server_env Samples.valid_pay initial)
    = {| http_status := 200; json := OkPayment r |}
    /\ status r = "PENDING".
Proof.
  destruct (C4_initiate_creates_pending Samples.server_env
              {| b_amount := VNumber (number_of_Z 100);
                 b_phone := VString "+254712345678";
                 b_reference := VUndefined |} initial)
    as (r & Hr & Hs & _).
  - reflexivity.
  - vm_compute. reflexivity.
  - exists r. split; [exact Hr|exact Hs].
Defined.

(** C5, as stated, fails: when a second payment draws the id of the first
    (one second later), the timer of the first payment completes the second
    record: one second after its creation, with its own 2000 ms timer still
    pending, the record is SUCCESS with [completedAt] set. *)
Lemma C5_counterexample_completed_early :
  reachable Samples.after_first_timer
  /\ step Samples.after_two_pays
       (ETimer (Samples.clock + 2000) "AAAAAAAAAAAAAAAAAAAA")
       Samples.after_first_timer
  /\ timers Samples.after_two_pays
     = [Samples.first_timer; Samples.first_timer]
  /\ timers Samples.after_first_timer = [Samples.first_timer]
  /\ exists r,
       payments Samples.after_first_timer !! "AAAAAAAAAAAAAAAAAAAA" = Some r
       /\ createdAt r = toISOString (Samples.clock + 1000)
       /\ status r = "SUCCESS"
       /\ completedAt r = Some (toISOString (Samples.clock + 2000)).
Proof.
  assert (Hvalid : validate (b_amount (body_or_empty Samples.valid_pay))
                     (b_phone (body_or_empty Samples.valid_pay)) = [])
    by (vm_compute; reflexivity).
  assert (Hid : cryptoRandomId 20 (fun _ => 0%nat) = "AAAAAAAAAAAAAAAAAAAA")
    by (vm_compute; reflexivity).
  destruct (ServerFacts.pay_cases Samples.server_env Samples.valid_pay initial)
    as [[Hbad _]|[_ (r1 & Hid1 & _ & _ & Hpay1)]];
    [by destruct Hbad|].
  destruct (ServerFacts.pay_cases Samples.server_env_later Samples.valid_pay
              Samples.after_one_pay)
    as [[Hbad _]|[_ (r2 & Hid2 & Hst2 & Hc2 & Hpay2)]];
    [by destruct Hbad|].
  cbn [Samples.server_env Samples.server_env_later random] in Hid1, Hid2.
  rewrite Hid in Hid1, Hid2.
  assert (Hcreated : createdAt r2 = toISOString (Samples.clock + 1000)).
  { pose proof (f_equal (fun x => json (fst x)) Hpay2) as H.
    cbn [fst json] in H. unfold pay in H. rewrite Hvalid in H.
    cbn [length Nat.eqb negb fst json] in H. injection H as <-.
    reflexivity. }
  assert (Htimers : timers Samples.after_two_pays
                    = [Samples.first_timer; Samples.first_timer]).
  { unfold Samples.after_two_pays. rewrite Hpay2. cbn [snd timers].
    unfold Samples.after_one_pay. rewrite Hpay1. cbn [snd timers].
    rewrite Hid1, Hid2. reflexivity. }
  assert (Hstep : step Samples.after_two_pays
                    (ETimer (Samples.clock + 2000) "AAAAAAAAAAAAAAAAAAAA")
                    Samples.after_first_timer).
  { apply (step_timer (Samples.clock + 2000) completion_delay
             "AAAAAAAAAAAAAAAAAAAA" [] [Samples.first_timer]
             Samples.after_two_pays).
    exact Htimers. }
  split; [|split; [exact Hstep|split; [exact Htimers|split; [reflexivity|]]]].
  - exists [ETimer (Samples.clock + 2000) "AAAAAAAAAAAAAAAAAAAA";
            EPay Samples.server_env_later Samples.valid_pay;
            EPay Samples.server_env Samples.valid_pay].
    eapply run_cons; [|exact Hstep].
    eapply run_cons; [|apply step_pay].
    eapply run_cons; [apply run_nil|apply step_pay].
  - assert (Hlookup : payments Samples.after_two_pays
                        !! "AAAAAAAAAAAAAAAAAAAA" = Some r2).
    { unfold Samples.after_two_pays. rewrite Hpay2. cbn [snd payments].
      rewrite Hid2. apply lookup_insert_eq. }
    destruct (ServerFacts.on_timeout_lookup (Samples.clock + 2000)
                "AAAAAAAAAAAAAAAAAAAA" _ r2 Hlookup)
      as (r & Hr & Hs & Hc).
    exists r. cbn [Samples.after_first_timer payments].
    split; [exact Hr|]. split; [|by split].
    unfold on_timeout in Hr. rewrite Hlookup in Hr.
    rewrite lookup_insert_eq in Hr. injection Hr as <-. exact Hcreated.
Qed.

(** C5 (amended): in every reachable state each stored record has
    [completedAt] set exactly when its status is terminal; when a completion
    timer of an id fires, the record under that id is SUCCESS with
    [completedAt] set; and from its creation until a completion timer for
    its id fires (its own, or that of an earlier payment that drew the same
    id), the record under that id is PENDING with no [completedAt]. *)
Theorem C5_record_lifecycle (w : world) (Hw : reachable w) :
  (forall i r, payments w !! i = Some r ->
     (is_Some (completedAt r) <-> terminal (status r) = true))
  /\ (forall now i w', step w (ETimer now i) w' ->
        exists r, payments w' !! i = Some r /\ status r = "SUCCESS"
                  /\ completedAt r = Some (toISOString now))
  /\ (forall e b p evs w',
        json (fst (pay e b w)) = OkPayment p ->
        run_from (snd (pay e b w)) evs w' ->
        Forall (fun ev => ~ fires (id p) ev) evs ->
        exists r, payments w' !! id p = Some r /\ status r = "PENDING"
                  /\ completedAt r = None).
Proof.
  destruct (ServerFacts.reachable_ok w Hw) as [Hstore Htimers].
  split; [|split].
  - intros i r Hr. apply ServerFacts.record_ok_terminal. by eapply Hstore.
  - intros now i w' Hstep. inversion Hstep as [| |n d j before after w0 Ht];
      subst. cbn [payments].
    destruct (Htimers {| delay := d; timer_id := i |}) as [r Hr].
    { rewrite Ht. apply in_or_app. right. by left. }
    cbn [timer_id] in Hr. by eapply ServerFacts.on_timeout_lookup.
  - intros e b p evs w' Hjson Hrun Hall.
    eapply ServerFacts.run_keeps_pending; [exact Hrun|exact Hall|].
    destruct (ServerFacts.pay_cases e b w)
      as [[_ Hpay]|[_ (r & Hid & Hst & Hc & Hpay)]];
      rewrite Hpay in Hjson |- *; cbn [fst snd json] in *; [discriminate|].
    injection Hjson as <-. exists r. cbn [payments].
    by rewrite lookup_insert_eq.
Qed.

Lemma C5_witness :
  (exists r, payments Samples.after_other_pay !! "AAAAAAAAAAAAAAAAAAAA"
             = Some r
             /\ status r = "PENDING" /\ completedAt r = None)
  /\ (exists r,
        on_timeout (Samples.clock + 2000) "AAAAAAAAAAAAAAAAAAAA"
          (payments Samples.after_one_pay) !! "AAAAAAAAAAAAAAAAAAAA" = Some r
        /\ status r = "SUCCESS"
        /\ completedAt r = Some (toISOString (Samples.clock + 2000))).
Proof.
  split.
  - destruct (C5_record_lifecycle initial (ex_intro _ [] (run_nil initial)))
      as (_ & _ & H).
    destruct (ServerFacts.pay_cases Samples.server_env Samples.valid_pay
                initial)
      as [[Hbad _]|[_ (p & Hid & _ & _ & Hpay)]];
      [exfalso; apply Hbad; vm_compute; reflexivity|].
    replace "AAAAAAAAAAAAAAAAAAAA" with (id p)
      by (rewrite Hid; vm_compute; reflexivity).
    apply (H Samples.server_env Samples.valid_pay p
             [EStatus "AAAAAAAAAAAAAAAAAAAA";
              EPay Samples.server_env_other Samples.valid_pay]
             Samples.after_other_pay).
    + by rewrite Hpay.
    + apply (run_cons _ [EPay Samples.server_env_other Samples.valid_pay]
               Samples.after_other_pay (EStatus "AAAAAAAAAAAAAAAAAAAA")
               (snd (get_status "AAAAAAAAAAAAAAAAAAAA"
                       Samples.after_other_pay))).
      * apply (run_cons _ [] Samples.after_one_pay
                 (EPay Samples.server_env_other Samples.valid_pay)
                 Samples.after_other_pay (run_nil _)).
        apply step_pay.
      * apply step_status.
    + constructor; [intros []|]. constructor; [intros []|]. constructor.
  - assert (Hreach : reachable Samples.after_one_pay).
    { exists [EPay Samples.server_env Samples.valid_pay].
      apply (run_cons initial [] initial _ _ (run_nil initial)).
      apply step_pay. }
    destruct (C5_record_lifecycle Samples.after_one_pay Hreach)
      as (_ & H & _).
    apply (H (Samples.clock + 2000) "AAAAAAAAAAAAAAAAAAAA"
             {| payments :=
                  on_timeout (Samples.clock + 2000) "AAAAAAAAAAAAAAAAAAAA"
                    (payments Samples.after_one_pay);
                timers := [] ++ [] |}).
    apply (step_timer (Samples.clock + 2000) completion_delay
             "AAAAAAAAAAAAAAAAAAAA" [] [] Samples.after_one_pay).
    vm_compute. reflexivity.
Defined.

(** C7: [getStatus] answers 404 [{ok: false, error: "Not found"}] when the
    id is not in the store and 200 [{ok: true, payment: r}] with the stored
    record [r] when it is, and leaves the store as it was. *)
Theorem C7_get_status (i : string) (w : world) :
  (payments w !! i = None ->
   get_status i w = ({| http_status := 404; json := Error "Not found" |}, w))
  /\ (forall r, payments w !! i = Some r ->
        get_status i w = ({| http_status := 200; json := OkPayment r |}, w))
  /\ snd (get_status i w) = w.
Proof.
  unfold get_status. destruct (payments w !! i) as [r|]; repeat split;
    try done. by intros r' [= <-].
Qed.

Lemma C7_witness :
  get_status "nope" initial
  = ({| http_status := 404; json := Error "Not found" |}, initial)
  /\ exists r,
       get_status "AAAAAAAAAAAAAAAAAAAA" Samples.after_one_pay
       = ({| http_status := 200; json := OkPayment r |},
          Samples.after_one_pay)
       /\ status r = "PENDING".
Proof.
  split.
  - destruct (C7_get_status "nope" initial) as (H & _ & _).
    apply H. apply lookup_empty.
  - destruct (C7_get_status "AAAAAAAAAAAAAAAAAAAA" Samples.after_one_pay)
      as (_ & H & _).
    destruct (ServerFacts.pay_cases Samples.server_env Samples.valid_pay
                initial)
      as [[Hbad _]|[_ (p & Hid & Hst & _ & Hpay)]];
      [exfalso; apply Hbad; vm_compute; reflexivity|].
    exists p. split; [|exact Hst]. apply H.
    unfold Samples.after_one_pay. rewrite Hpay. cbn [snd payments].
    replace "AAAAAAAAAAAAAAAAAAAA" with (id p)
      by (rewrite Hid; vm_compute; reflexivity).
    apply lookup_insert_eq.
Defined.

End ServerClaims.

(** ** Facts about the push timestamp *)

Module TimestampFacts.
Import JS.

Lemma chars_of_app s1 s2 : chars_of (s1 +:+ s2) = chars_of s1 ++ chars_of s2.
Proof.
  induction s1 as [|c s1 IH]; [reflexivity|].
  change (c :: chars_of (s1 +:+ s2) = c :: (chars_of s1 ++ chars_of s2)).
  by rewrite IH.
Qed.

(** Replacing every match of a character class by nothing filters the
    class out. *)
Lemma replace_class_filters cs : forall l fuel pos,
  (length l <= fuel)%nat ->
  replace_from fuel (Class cs) [] pos l = List.filter (outside cs) l.
Proof.
  induction l as [|x t IH]; intros fuel pos Hlen.
  - by destruct fuel.
  - destruct fuel as [|f]; [cbn in Hlen; lia|].
    cbn [replace_from run eat snd fst List.filter]. unfold outside at 1.
    destruct (existsb (Ascii.eqb x) cs); cbn [negb].
    + replace (pos <? S pos)%nat with true
        by (symmetry; apply Nat.ltb_lt; lia).
      cbn [app]. apply IH. cbn in Hlen. lia.
    + f_equal. apply IH. cbn in Hlen. lia.
Qed.

Lemma replace_all_class cs s :
  chars_of (replace_all (Class cs) "" s) = List.filter (outside cs) (chars_of s).
Proof.
  unfold replace_all. rewrite list_ascii_of_string_of_list_ascii.
  apply replace_class_filters. by rewrite JSFacts.length_list_ascii.
Qed.

Lemma split_first_prefix l1 : forall s2,
  forallb dotless l1 = true ->
  chars_of (split_first "." (string_of_list_ascii l1 +:+ s2)) =
  l1 ++ chars_of (split_first "." s2).
Proof.
  induction l1 as [|x t IH]; intros s2 Hd; [reflexivity|].
  cbn in Hd. apply andb_true_iff in Hd as [Hx Ht].
  change (chars_of
            (if Ascii.eqb x "." then EmptyString
             else String x
                    (split_first "." (string_of_list_ascii t +:+ s2))) =
          x :: (t ++ chars_of (split_first "." s2))).
  unfold dotless in Hx. rewrite (proj1 (negb_true_iff _) Hx).
  cbn [chars_of]. f_equal. by apply IH.
Qed.

Lemma digit_char_is_digit v : is_digit (digit_char (v mod 10)) = true.
Proof.
  assert (H : 0 <= v mod 10 < 10) by (apply Z.mod_pos_bound; lia).
  assert (Hc : v mod 10 = 0 \/ v mod 10 = 1 \/ v mod 10 = 2 \/ v mod 10 = 3
               \/ v mod 10 = 4 \/ v mod 10 = 5 \/ v mod 10 = 6
               \/ v mod 10 = 7 \/ v mod 10 = 8 \/ v mod 10 = 9) by lia.
  repeat destruct Hc as [-> | Hc]; try reflexivity. by rewrite Hc.
Qed.

Lemma digits_fuel_all_digits fuel : forall v acc,
  all_digits acc = true -> all_digits (digits_fuel fuel v acc) = true.
Proof.
  induction fuel as [|f IH]; intros v acc Hacc; [exact Hacc|].
  cbn [digits_fuel].
  assert (Hnew : all_digits (String (digit_char (v mod 10)) acc) = true).
  { unfold all_digits in *. cbn [chars_of forallb].
    by rewrite digit_char_is_digit, Hacc. }
  destruct (v <? 10); [exact Hnew|]. by apply IH.
Qed.

Lemma decimal_all_digits v : all_digits (decimal v) = true.
Proof. by apply digits_fuel_all_digits. Qed.

Lemma zeros_all_digits k : all_digits (zeros k) = true.
Proof. induction k as [|k IH]; [reflexivity|exact IH]. Qed.

Lemma all_digits_app s1 s2 :
  all_digits (s1 +:+ s2) = all_digits s1 && all_digits s2.
Proof. unfold all_digits. by rewrite chars_of_app, forallb_app. Qed.

Lemma pad_all_digits w v : all_digits (pad w v) = true.
Proof.
  unfold pad. by rewrite all_digits_app, zeros_all_digits, decimal_all_digits.
Qed.

Lemma digits_dotless s :
  all_digits s = true -> forallb dotless (chars_of s) = true.
Proof.
  unfold all_digits. induction (chars_of s) as [|x t IH]; [reflexivity|].
  cbn [forallb]. intros H. apply andb_true_iff in H as [Hx Ht].
  rewrite IH by exact Ht. rewrite andb_true_r.
  unfold dotless. destruct (Ascii.eqb_spec x "."); [subst; discriminate|done].
Qed.

Lemma year_string_dotless y :
  forallb dotless (chars_of (year_string y)) = true.
Proof.
  unfold year_string.
  destruct ((0 <=? y) && (y <=? 9999)); [|destruct (y <? 0)];
    cbn [chars_of forallb]; rewrite ?digits_dotless; try reflexivity;
    apply pad_all_digits.
Qed.

(** The ISO string is a dot-free date part, then [T], then the time. *)
Lemma toISOString_shape t :
  exists a b,
    chars_of (toISOString t) = a ++ "T"%char :: b
    /\ forallb dotless a = true.
Proof.
  unfold toISOString.
  destruct (MonthAndDate _ _) as [m d].
  eexists (chars_of (year_string _) ++ "-"%char :: chars_of (pad 2 (m + 1))
           ++ "-"%char :: chars_of (pad 2 d)), _.
  split.
  - rewrite !chars_of_app. cbn [chars_of app].
    rewrite <- !app_assoc. cbn [app].
    rewrite <- !app_assoc. cbn [app]. reflexivity.
  - rewrite forallb_app. cbn [forallb]. rewrite forallb_app. cbn [forallb].
    rewrite year_string_dotless.
    rewrite !digits_dotless by apply pad_all_digits. reflexivity.
Qed.

(** In every push timestamp the [T] of the ISO string is still there. *)
Lemma make_timestamp_has_T t :
  exists a b, chars_of (Index.make_timestamp t) = a ++ "T"%char :: b.
Proof.
  destruct (toISOString_shape t) as (a & b & Hshape & Hdot).
  unfold Index.make_timestamp.
  rewrite <- (string_of_list_ascii_of_string
                (replace_all (Class ["-"%char; ":"%char]) "" (toISOString t))).
  rewrite replace_all_class, Hshape, List.filter_app.
  cbn [List.filter]. change (outside ["-"%char; ":"%char] "T") with true.
  cbv iota.
  set (fa := List.filter (outside ["-"%char; ":"%char]) a).
  set (fb := List.filter (outside ["-"%char; ":"%char]) b).
  assert (Hfa : forallb dotless fa = true).
  { unfold fa. clear -Hdot. induction a as [|x t' IH]; [reflexivity|].
    cbn in Hdot. apply andb_true_iff in Hdot as [Hx Ht].
    cbn [List.filter]. destruct (outside _ x); [|by apply IH].
    cbn [forallb]. by rewrite Hx, IH. }
  replace (string_of_list_ascii (fa ++ "T"%char :: fb))
    with (string_of_list_ascii fa +:+ String "T" (string_of_list_ascii fb)).
  - rewrite split_first_prefix by exact Hfa.
    cbn [split_first]. change (Ascii.eqb "T" ".") with false. cbv iota.
    cbn [chars_of]. eauto.
  - clear. induction fa as [|x t' IH]; [reflexivity|].
    change (String x (string_of_list_ascii t' +:+
                      String "T" (string_of_list_ascii fb)) =
            String x (string_of_list_ascii (t' ++ "T"%char :: fb))).
    by rewrite IH.
Qed.

Lemma make_timestamp_not_digits t : all_digits (Index.make_timestamp t) = false.
Proof.
  destruct (make_timestamp_has_T t) as (a & b & H).
  unfold all_digits. rewrite H, forallb_app. cbn [forallb].
  change (is_digit "T") with false. cbn [andb]. apply andb_false_r.
Qed.

End TimestampFacts.

(** ** The provider profile (index.js): claims *)

Module IndexClaims.
Import JS Index.

Lemma stk_push_rejected c e b w :
  accepted b = false ->
  stk_push c e b w =
  (Return {| http_status := 400;
             json := StkError (VString (first_error b)) |}, w).
Proof.
  unfold accepted, stk_push, first_error, try_catch, respond, ret.
  destruct (missing_field b); [reflexivity|].
  destruct (phone_bad (b_phone b)); [reflexivity|].
  destruct (amount_bad (parseInt (b_amount b))); [reflexivity|discriminate].
Qed.

Lemma initiateSTKPush_posts c e tok phone amount w :
  snd (initiateSTKPush c e tok phone amount w) =
  w ++ [HttpPost (stkPush (getEndpoints c))
          (make_payload c (push_time e) phone amount)
          ("Bearer " +:+ ToString tok)].
Proof.
  unfold initiateSTKPush, try_catch, bind, perform, throw, ret.
  by destruct (push_result e).
Qed.

(** What an accepted request does when the log can be written and a token
    is obtained: one log line, the token request, the push request. *)
Lemma stk_push_accepted c e b w data :
  accepted b = true ->
  append_failure e = None ->
  auth_result e = Responded data ->
  ToBoolean (access_token data) = true ->
  snd (stk_push c e b w) =
  w ++ [AppendFile "logs/request_log.json"
          {| timestamp := toISOString (log_time e);
             entry_data := RequestData (b_phone b) (parseInt (b_amount b)) |};
        HttpGet (auth (getEndpoints c))
          ("Basic " +:+ base64 (consumerKey c +:+ ":" +:+ consumerSecret c));
        HttpPost (stkPush (getEndpoints c))
          (make_payload c (push_time e) (b_phone b) (parseInt (b_amount b)))
          ("Bearer " +:+ ToString (access_token data))].
Proof.
  intros Hacc Hlog Hauth Htok.
  unfold accepted in Hacc. apply andb_true_iff in Hacc as [Hacc Ha].
  apply andb_true_iff in Hacc as [Hm Hp].
  apply negb_true_iff in Hm, Hp, Ha.
  unfold stk_push. rewrite Hm, Hp, Ha.
  unfold try_catch at 1. unfold bind at 1.
  unfold writeLog. rewrite Hlog. unfold perform at 1.
  unfold bind at 1.
  unfold getAccessToken. rewrite Hauth, Htok. cbn [negb].
  unfold try_catch at 1. unfold bind at 1. unfold perform at 1, ret at 1.
  unfold bind.
  pose proof (initiateSTKPush_posts c e (access_token data) (b_phone b)
                (parseInt (b_amount b))
                ((w ++ [AppendFile "logs/request_log.json"
                          {| timestamp := toISOString (log_time e);
                             entry_data :=
                               RequestData (b_phone b)
                                 (parseInt (b_amount b)) |}]) ++
                 [HttpGet (auth (getEndpoints c))
                    ("Basic " +:+
                     base64 (consumerKey c +:+ ":" +:+ consumerSecret c))]))
    as Hpost.
  destruct (initiateSTKPush _ _ _ _ _ _) as [[d|err] w'].
  - cbn [snd] in Hpost. subst w'.
    destruct (is_string_0 (ResponseCode d)); cbn [respond ret snd];
      by rewrite <- !app_assoc.
  - cbn [snd] in Hpost. subst w'. cbn [respond ret snd].
    by rewrite <- !app_assoc.
Qed.

(** C1, as stated, fails: when the log cannot be written the callback is
    answered with the failure acknowledgment under status 500, which is not
    a success status. *)
Lemma C1_counterexample_status_500 :
  exists r,
    returned (callback Samples.env_disk_full "196.201.214.200" None []) = Some r
    /\ json r = Ack 1 "Error processing callback"
    /\ http_status r = 500
    /\ success_status (http_status r) = false.
Proof. eexists. repeat split; reflexivity. Qed.

(** C1 (amended): the callback handler never throws and always answers with
    one of the two fixed acknowledgments: status 200 with
    [{ResultCode: 0, ResultDesc: "Callback received successfully"}] when the
    callback was logged, status 500 with
    [{ResultCode: 1, ResultDesc: "Error processing callback"}] when logging
    threw. *)
Theorem C1_callback_acknowledgment (e : env) (ip : string)
    (data : option json_doc) (w : world) :
  callback e ip data w =
  match append_failure e with
  | None =>
      (Return {| http_status := 200;
                 json := Ack 0 "Callback received successfully" |},
       w ++ [AppendFile "logs/callback_log.json"
               {| timestamp := toISOString (log_time e);
                  entry_data := CallbackData ip data |}])
  | Some _ =>
      (Return {| http_status := 500;
                 json := Ack 1 "Error processing callback" |}, w)
  end.
Proof.
  unfold callback, try_catch, bind, writeLog.
  by destruct (append_failure e).
Qed.

(** C2: the push request carries [Password = base64(shortcode + passkey +
    Timestamp)] with the same [Timestamp] in the payload, but the timestamp
    is never the digits-only [YYYYMMDDHHMMSS]: the [T] of the ISO string is
    left in at every time, and at 2024-01-15T10:30:45.123Z the timestamp is
    the 15-character [20240115T103045]. *)
Theorem C2_timestamp_keeps_T (c : config) (e : env) (tok phone : value)
    (amount : number) (w : world) :
  snd (initiateSTKPush c e tok phone amount w) =
    w ++ [HttpPost (stkPush (getEndpoints c))
            (make_payload c (push_time e) phone amount)
            ("Bearer " +:+ ToString tok)]
  /\ Password (make_payload c (push_time e) phone amount) =
     base64 (shortcode c +:+ passkey c +:+
             Timestamp (make_payload c (push_time e) phone amount))
  /\ Timestamp (make_payload c (push_time e) phone amount) =
     make_timestamp (push_time e)
  /\ all_digits (Timestamp (make_payload c (push_time e) phone amount))
     = false
  /\ make_timestamp Samples.clock = "20240115T103045"
  /\ String.length (make_timestamp Samples.clock) = 15%nat.
Proof.
  split; [apply initiateSTKPush_posts|].
  do 2 (split; [reflexivity|]).
  split; [apply TimestampFacts.make_timestamp_not_digits|].
  split; vm_compute; reflexivity.
Qed.

(** C10: a request whose phone passes and whose amount is truthy and read
    by [parseInt] as an integer [k] between 1 and 150000 is accepted, and
    when the log is written and a token obtained the push payload carries
    [k] itself as [Amount]; an amount string made of digits (the first not
    0) followed by anything that does not start with a digit is read as the
    value of those digits; so ["100.99"] is accepted and forwarded as 100
    and ["12abc"] as 12. *)
Theorem C10_truncated_amount_forwarded :
  (forall c e b w data k,
     ToBoolean (b_phone b) = true ->
     phone_bad (b_phone b) = false ->
     ToBoolean (b_amount b) = true ->
     parseInt_Z (ToString (b_amount b)) = Some k ->
     1 <= k <= 150000 ->
     append_failure e = None ->
     auth_result e = Responded data ->
     ToBoolean (access_token data) = true ->
     accepted b = true
     /\ snd (stk_push c e b w) =
        w ++ [AppendFile "logs/request_log.json"
                {| timestamp := toISOString (log_time e);
                   entry_data := RequestData (b_phone b) (Fin (inject_Z k)) |};
              HttpGet (auth (getEndpoints c))
                ("Basic " +:+
                 base64 (consumerKey c +:+ ":" +:+ consumerSecret c));
              HttpPost (stkPush (getEndpoints c))
                (make_payload c (push_time e) (b_phone b) (Fin (inject_Z k)))
                ("Bearer " +:+ ToString (access_token data))]
     /\ Amount (make_payload c (push_time e) (b_phone b) (Fin (inject_Z k)))
        = Fin (inject_Z k))
  /\ (forall d ds rest,
        is_digit d = true -> d <> "0"%char -> all_digits ds = true ->
        no_leading_digit rest = true ->
        1 <= radix_value 10 0 (String d ds) <= 150000 ->
        amount_bad (parseInt (VString (String d ds +:+ rest))) = false
        /\ parseInt (VString (String d ds +:+ rest))
           = Fin (inject_Z (radix_value 10 0 (String d ds))))
  /\ parseInt_Z "100.99" = Some 100
  /\ parseInt_Z "12abc" = Some 12
  /\ accepted (Samples.push_body (VString "254712345678") (VString "100.99"))
     = true
  /\ accepted (Samples.push_body (VString "254712345678") (VString "12abc"))
     = true.
Proof.
  split; [|split; [|repeat split; vm_compute; reflexivity]].
  2: {
    intros d ds rest Hd H0 Hds Hrest Hrange.
    pose proof (NumberFacts.parseInt_digit_prefix d ds rest Hd H0 Hds Hrest)
      as Hk.
    split.
    - apply NumberFacts.provider_amount_range. eauto.
    - by apply NumberFacts.provider_amount_value. }
  intros c e b w data k Hph Hpat Ham Hk Hrange Hlog Hauth Htok.
  assert (Hbad : amount_bad (parseInt (b_amount b)) = false)
    by (apply NumberFacts.provider_amount_range; eauto).
  assert (Hacc : accepted b = true).
  { unfold accepted, missing_field. by rewrite Hph, Ham, Hpat, Hbad. }
  split; [exact Hacc|]. split; [|reflexivity].
  rewrite (stk_push_accepted c e b w data Hacc Hlog Hauth Htok).
  by rewrite (NumberFacts.provider_amount_value _ k Hk Hrange).
Qed.

Lemma C10_witness :
  snd (stk_push Samples.config Samples.env
         (Samples.push_body (VString "254712345678") (VString "100.99")) [])
  = [AppendFile "logs/request_log.json"
       {| timestamp := toISOString Samples.clock;
          entry_data :=
            RequestData (VString "254712345678") (Fin (inject_Z 100)) |};
     HttpGet (auth (getEndpoints Samples.config))
       ("Basic " +:+ base64 "key:secret");
     HttpPost (stkPush (getEndpoints Samples.config))
       (make_payload Samples.config Samples.clock (VString "254712345678")
          (Fin (inject_Z 100)))
       "Bearer token"].
Proof.
  destruct C10_truncated_amount_forwarded as (H & _).
  destruct (H Samples.config Samples.env
              (Samples.push_body (VString "254712345678") (VString "100.99"))
              [] {| access_token := VString "token" |} 100)
    as (_ & Htrace & _).
  - reflexivity.
  - vm_compute. reflexivity.
  - reflexivity.
  - vm_compute. reflexivity.
  - lia.
  - reflexivity.
  - reflexivity.
  - reflexivity.
  - exact Htrace.
Defined.

End IndexClaims.

(** ** Claims about both profiles *)

Module Claims.
Import JS.

(** C3, as stated, fails in the provider profile: with a bad phone and a
    bad amount the rejection names the phone only. *)
Lemma C3_counterexample_provider_first_only :
  Index.phone_bad (VString "071234567") = true
  /\ Index.amount_bad (parseInt (VString "abc")) = true
  /\ Index.returned
       (Index.stk_push Samples.config Samples.env
          (Samples.push_body (VString "071234567") (VString "abc")) [])
     = Some {| Index.http_status := 400;
               Index.json := Index.StkError (VString Index.phone_error) |}
  /\ ~ In (VString Index.amount_error)
         (Index.reported (Index.StkError (VString Index.phone_error))).
Proof.
  repeat split; try (vm_compute; reflexivity).
  intros [H|[]]. discriminate.
Qed.

(** C3 (amended): the generic profile answers 400 with the list of all the
    violated rules, amount first (both messages when amount and phone are
    both invalid); the provider profile answers 400 with a single [error],
    that of the first check that fails in the order missing field, phone
    format, amount range. *)
Theorem C3_violations_reported :
  (forall e b w,
     let amount := Server.b_amount (Server.body_or_empty b) in
     let phone := Server.b_phone (Server.body_or_empty b) in
     Server.amount_bad amount || Server.phone_bad phone = true ->
     Server.pay e b w =
     ({| Server.http_status := 400;
         Server.json :=
           Server.Errors
             ((if Server.amount_bad amount then [Server.amount_error] else [])
              ++ (if Server.phone_bad phone then [Server.phone_error]
                  else [])) |}, w))
  /\ (forall e b w,
        Server.amount_bad (Server.b_amount (Server.body_or_empty b)) = true ->
        Server.phone_bad (Server.b_phone (Server.body_or_empty b)) = true ->
        Server.pay e b w =
        ({| Server.http_status := 400;
            Server.json :=
              Server.Errors [Server.amount_error; Server.phone_error] |}, w))
  /\ (forall c e b w,
        Index.accepted b = false ->
        Index.stk_push c e b w =
        (Index.Return
           {| Index.http_status := 400;
              Index.json := Index.StkError (VString (Index.first_error b)) |},
         w)
        /\ Index.reported (Index.StkError (VString (Index.first_error b)))
           = [VString (Index.first_error b)]).
Proof.
  assert (Hgen : forall e b w,
     let amount := Server.b_amount (Server.body_or_empty b) in
     let phone := Server.b_phone (Server.body_or_empty b) in
     Server.amount_bad amount || Server.phone_bad phone = true ->
     Server.pay e b w =
     ({| Server.http_status := 400;
         Server.json :=
           Server.Errors
             ((if Server.amount_bad amount then [Server.amount_error] else [])
              ++ (if Server.phone_bad phone then [Server.phone_error]
                  else [])) |}, w)).
  { intros e b w amount phone Hbad.
    destruct (ServerFacts.pay_cases e b w) as [[_ ->]|[Hnil _]].
    - unfold Server.validate. subst amount phone.
      by destruct (Server.amount_bad _), (Server.phone_bad _).
    - unfold Server.validate in Hnil. subst amount phone.
      destruct (Server.amount_bad _), (Server.phone_bad _); done. }
  split; [exact Hgen|]. split.
  - intros e b w Ha Hp. rewrite Hgen; cbv zeta; rewrite Ha, Hp; reflexivity.
  - intros c e b w Hacc. split; [|reflexivity].
    by apply IndexClaims.stk_push_rejected.
Qed.

Lemma C3_witness :
  Server.pay Samples.server_env
    (Samples.pay_body (VString "abc") (VString "12")) Server.initial
  = ({| Server.http_status := 400;
        Server.json :=
          Server.Errors [Server.amount_error; Server.phone_error] |},
     Server.initial).
Proof.
  destruct C3_violations_reported as (_ & H & _).
  apply H; vm_compute; reflexivity.
Defined.

(** C6: an input that violates a validation rule is answered with a
    structured 400 rejection and nothing else happens: in the generic
    profile the store and the timers are as before; in the provider profile
    no effect is performed, so no token is requested and no push is
    submitted. *)
Theorem C6_invalid_input_rejected :
  (forall e b w,
     Server.validate (Server.b_amount (Server.body_or_empty b))
       (Server.b_phone (Server.body_or_empty b)) <> [] ->
     Server.pay e b w =
     ({| Server.http_status := 400;
         Server.json :=
           Server.Errors
             (Server.validate (Server.b_amount (Server.body_or_empty b))
                (Server.b_phone (Server.body_or_empty b))) |}, w)
     /\ size (Server.payments (snd (Server.pay e b w)))
        = size (Server.payments w))
  /\ (forall c e b w,
        Index.accepted b = false ->
        Index.stk_push c e b w =
        (Index.Return
           {| Index.http_status := 400;
              Index.json := Index.StkError (VString (Index.first_error b)) |},
         w)
        /\ filter (fun ef => Index.contacts_provider ef = true)
             (snd (Index.stk_push c e b w))
           = filter (fun ef => Index.contacts_provider ef = true) w).
Proof.
  split.
  - intros e b w Hbad.
    destruct (ServerFacts.pay_cases e b w) as [[_ ->]|[Hnil _]]; [done|].
    by destruct Hbad.
  - intros c e b w Hacc.
    by rewrite (IndexClaims.stk_push_rejected c e b w Hacc).
Qed.

Lemma C6_witness :
  Index.stk_push Samples.config Samples.env
    (Samples.push_body (VString "254712345678") (VString "150001")) []
  = (Index.Return
       {| Index.http_status := 400;
          Index.json := Index.StkError (VString Index.amount_error) |}, [])
  /\ Server.pay Samples.server_env
       (Samples.pay_body (VNumber (number_of_Z 0)) (VString "254712345678"))
       Samples.after_one_pay
     = ({| Server.http_status := 400;
           Server.json := Server.Errors [Server.amount_error] |},
        Samples.after_one_pay).
Proof.
  destruct C6_invalid_input_rejected as [Hgen Hprov]. split.
  - destruct (Hprov Samples.config Samples.env
                (Samples.push_body (VString "254712345678")
                   (VString "150001")) []) as [H _].
    + vm_compute. reflexivity.
    + exact H.
  - destruct (Hgen Samples.server_env
                (Samples.pay_body (VNumber (number_of_Z 0))
                   (VString "254712345678")) Samples.after_one_pay) as [H _].
    + vm_compute. discriminate.
    + exact H.
Defined.

(** C8: a phone string passes the generic profile exactly when it is an
    optional [+] followed by 7 to 15 digits, and the provider profile exactly
    when it is [2547] followed by 8 digits; so ["+254712345678"] passes the
    generic profile, ["254712345678"] passes the provider profile, and
    ["071234567"] and ["+254712345678"] fail the provider profile. *)
Theorem C8_phone_validation :
  (forall s,
     Server.phone_bad (VString s) = false <->
     exists ds, (s = ds \/ s = String "+" ds)
                /\ all_digits ds = true
                /\ (7 <= String.length ds <= 15)%nat)
  /\ (forall s,
        (ToBoolean (VString s) = true
         /\ Index.phone_bad (VString s) = false) <->
        exists ds, s = "2547" +:+ ds
                   /\ all_digits ds = true /\ String.length ds = 8%nat)
  /\ Server.phone_bad (VString "+254712345678") = false
  /\ Index.phone_bad (VString "254712345678") = false
  /\ Index.phone_bad (VString "071234567") = true
  /\ Index.phone_bad (VString "+254712345678") = true.
Proof.
  split; [|split; [|repeat split; vm_compute; reflexivity]].
  - intros s. rewrite ServerClaims.phone_bad_test, negb_false_iff.
    apply JSFacts.generic_phone_shape.
  - intros s. unfold Index.phone_bad. rewrite negb_false_iff.
    cbn [ToString]. rewrite JSFacts.provider_phone_shape. split.
    + intros [_ H]. exact H.
    + intros (ds & -> & Hd & Hl). split; [reflexivity|]. by exists ds.
Qed.

Lemma C8_witness :
  Server.phone_bad (VString "+254712345678") = false
  /\ Index.phone_bad (VString "254712345678") = false.
Proof.
  destruct C8_phone_validation as (Hgen & Hprov & _). split.
  - apply Hgen. exists "254712345678". repeat split.
    + by right.
    + cbn. lia.
    + cbn. lia.
  - apply Hprov. exists "12345678". repeat split.
Defined.

(** C9: the provider profile rejects the amounts 0, -5, ["abc"] and 150001
    and accepts 150000, an amount being in range exactly when [parseInt]
    reads an integer between 1 and 150000 from it; the generic profile
    accepts 150001 and rejects 0, an amount passing exactly when [Number]
    makes it a number greater than zero. *)
Theorem C9_amount_validation :
  Index.accepted
    (Samples.push_body (VString "254712345678") (VNumber (number_of_Z 0)))
  = false
  /\ Index.accepted
       (Samples.push_body (VString "254712345678")
          (VNumber (number_of_Z (-5)))) = false
  /\ Index.accepted
       (Samples.push_body (VString "254712345678") (VString "abc")) = false
  /\ Index.accepted
       (Samples.push_body (VString "254712345678")
          (VNumber (number_of_Z 150001))) = false
  /\ Index.accepted
       (Samples.push_body (VString "254712345678")
          (VNumber (number_of_Z 150000))) = true
  /\ (forall a,
        Index.amount_bad (parseInt a) = false <->
        exists k, parseInt_Z (ToString a) = Some k /\ 1 <= k <= 150000)
  /\ Server.amount_bad (VNumber (number_of_Z 150001)) = false
  /\ Server.amount_bad (VNumber (number_of_Z 0)) = true
  /\ (forall a,
        Server.amount_bad a = false <-> gt (Number a) (Fin 0) = true).
Proof.
  do 5 (split; [vm_compute; reflexivity|]).
  split; [exact NumberFacts.provider_amount_range|].
  do 2 (split; [vm_compute; reflexivity|]).
  exact NumberFacts.generic_amount_positive.
Qed.

Lemma C9_witness :
  Index.amount_bad (parseInt (VString "150000")) = false
  /\ Server.amount_bad (VString "150001") = false.
Proof.
  destruct C9_amount_validation as (_ & _ & _ & _ & _ & Hprov & _ & _ & Hgen).
  split.
  - apply Hprov. exists 150000. split; [vm_compute; reflexivity|lia].
  - apply Hgen. vm_compute. reflexivity.
Defined.

End Claims.

(** ** Further properties of server.js *)

Module ServerExtras.
Import JS Server Notions.

Lemma string_app_assoc (a b c : string) : (a +:+ b) +:+ c = a +:+ (b +:+ c).
Proof.
  induction a as [|x a IH]; [reflexivity|].
  change (String x ((a +:+ b) +:+ c) = String x (a +:+ (b +:+ c))).
  by rewrite IH.
Qed.

Lemma string_app_empty_r (a : string) : a +:+ EmptyString = a.
Proof.
  induction a as [|x a IH]; [reflexivity|].
  change (String x (a +:+ EmptyString) = String x a). by rewrite IH.
Qed.

Lemma loop_is_tail draws n : forall i out,
  cryptoRandomId_loop n i draws out = out +:+ id_tail n i draws.
Proof.
  induction n as [|n IH]; intros i out; cbn [cryptoRandomId_loop id_tail].
  - by rewrite string_app_empty_r.
  - by rewrite IH, string_app_assoc.
Qed.

Lemma cryptoRandomId_tail len draws :
  cryptoRandomId len draws = id_tail len 0 draws.
Proof. unfold cryptoRandomId. by rewrite loop_is_tail. Qed.

(** In range, [chars[k]] is one alphanumeric character, and [k] is its
    position in [chars]. *)
Lemma char_at_char k :
  (k < 62)%nat ->
  exists c, char_at k = String c EmptyString
            /\ alphanumeric c = true /\ index_of c chars = k.
Proof.
  intros Hk.
  do 62 (destruct k as [|k]; [eexists; repeat split; reflexivity|]). lia.
Qed.

Lemma id_tail_alphanumeric draws n : forall i,
  (forall j, (draws j < 62)%nat) ->
  forallb alphanumeric (chars_of (id_tail n i draws)) = true.
Proof.
  induction n as [|n IH]; intros i Hd; [reflexivity|].
  cbn [id_tail].
  destruct (char_at_char (draws i) (Hd i)) as (c & -> & Hc & _).
  change (alphanumeric c && forallb alphanumeric
            (chars_of (id_tail n (S i) draws)) = true).
  by rewrite Hc, IH.
Qed.

Lemma id_tail_inj d1 d2 n : forall i,
  (forall j, (d1 j < 62)%nat) -> (forall j, (d2 j < 62)%nat) ->
  id_tail n i d1 = id_tail n i d2 ->
  forall j, (i <= j < i + n)%nat -> d1 j = d2 j.
Proof.
  induction n as [|n IH]; intros i H1 H2 Heq j Hj; [lia|].
  cbn [id_tail] in Heq.
  destruct (char_at_char (d1 i) (H1 i)) as (c1 & E1 & _ & I1).
  destruct (char_at_char (d2 i) (H2 i)) as (c2 & E2 & _ & I2).
  rewrite E1, E2 in Heq.
  change (String c1 (id_tail n (S i) d1) = String c2 (id_tail n (S i) d2))
    in Heq.
  injection Heq as Hc Ht.
  destruct (decide (j = i)) as [->|Hne].
  - rewrite <- I1, <- I2. by rewrite Hc.
  - apply (IH (S i) H1 H2 Ht). lia.
Qed.

Lemma id_tail_ext d1 d2 n : forall i,
  (forall j, (i <= j < i + n)%nat -> d1 j = d2 j) ->
  id_tail n i d1 = id_tail n i d2.
Proof.
  induction n as [|n IH]; intros i H; [reflexivity|].
  cbn [id_tail]. rewrite (H i) by lia. f_equal. apply IH.
  intros j Hj. apply H. lia.
Qed.

(** X1: when every draw is an index of [chars], the id has exactly [len]
    characters and each of them is one of the 62 alphanumeric characters. *)
Theorem X1_cryptoRandomId_shape (len : nat) (draws : nat -> nat) :
  (forall j, (draws j < 62)%nat) ->
  String.length (cryptoRandomId len draws) = len
  /\ forallb alphanumeric (chars_of (cryptoRandomId len draws)) = true.
Proof.
  intros Hd. split.
  - by apply ServerClaims.cryptoRandomId_length.
  - rewrite cryptoRandomId_tail. by apply id_tail_alphanumeric.
Qed.

Lemma X1_witness :
  String.length (cryptoRandomId 20 (fun i => (i * 7 mod 62)%nat)) = 20%nat
  /\ forallb alphanumeric
       (chars_of (cryptoRandomId 20 (fun i => (i * 7 mod 62)%nat))) = true.
Proof.
  apply (X1_cryptoRandomId_shape 20 (fun i => (i * 7 mod 62)%nat)).
  intros j. apply Nat.mod_upper_bound. discriminate.
Defined.

(** X2: two sequences of in-range draws give the same id exactly when they
    agree on the first [len] draws, so ids collide only when all the draws
    coincide. *)
Theorem X2_cryptoRandomId_injective (len : nat) (d1 d2 : nat -> nat) :
  (forall j, (d1 j < 62)%nat) -> (forall j, (d2 j < 62)%nat) ->
  (cryptoRandomId len d1 = cryptoRandomId len d2 <->
   forall j, (j < len)%nat -> d1 j = d2 j).
Proof.
  intros H1 H2. rewrite !cryptoRandomId_tail. split.
  - intros Heq j Hj. apply (id_tail_inj d1 d2 len 0 H1 H2 Heq). lia.
  - intros H. apply id_tail_ext. intros j Hj. apply H. lia.
Qed.

Lemma X2_witness :
  cryptoRandomId 20 (fun i => (i mod 62)%nat)
  <> cryptoRandomId 20 (fun i => (i * 7 mod 62)%nat).
Proof.
  intros Heq.
  assert (H : forall j, (j < 20)%nat -> (j mod 62 = j * 7 mod 62)%nat).
  { apply (X2_cryptoRandomId_injective 20 (fun i => (i mod 62)%nat)
             (fun i => (i * 7 mod 62)%nat)).
    - intros j. apply Nat.mod_upper_bound. discriminate.
    - intros j. apply Nat.mod_upper_bound. discriminate.
    - exact Heq. }
  specialize (H 1%nat). cbn in H. lia.
Defined.

Lemma pay_valid e b w :
  validate (b_amount (body_or_empty b)) (b_phone (body_or_empty b)) = [] ->
  pay e b w =
  ({| http_status := 200; json := OkPayment (created e (body_or_empty b)) |},
   {| payments :=
        <[cryptoRandomId 20 (random e) := created e (body_or_empty b)]>
          (payments w);
      timers :=
        timers w ++
        [{| delay := completion_delay;
            timer_id := cryptoRandomId 20 (random e) |}] |}).
Proof. intros Hv. unfold pay. rewrite Hv. reflexivity. Qed.

Lemma pay_invalid e b w :
  validate (b_amount (body_or_empty b)) (b_phone (body_or_empty b)) <> [] ->
  pay e b w =
  ({| http_status := 400;
      json := Errors (validate (b_amount (body_or_empty b))
                        (b_phone (body_or_empty b))) |}, w).
Proof.
  intros Hv. destruct (ServerFacts.pay_cases e b w) as [[_ H]|[Hnil _]];
    [exact H|by destruct Hv].
Qed.

Lemma validate_dec amount phone :
  validate amount phone = [] \/ validate amount phone <> [].
Proof. destruct (validate amount phone); [by left|by right]. Qed.

(** The payment a reply carries was created by this request. *)
Lemma pay_ok_inv e b w r :
  json (fst (pay e b w)) = OkPayment r ->
  validate (b_amount (body_or_empty b)) (b_phone (body_or_empty b)) = []
  /\ r = created e (body_or_empty b).
Proof.
  intros H.
  destruct (validate_dec (b_amount (body_or_empty b))
              (b_phone (body_or_empty b))) as [Hv|Hv].
  - split; [exact Hv|]. rewrite (pay_valid e b w Hv) in H.
    cbn [fst json] in H. by injection H.
  - rewrite (pay_invalid e b w Hv) in H. discriminate.
Qed.

(** X3: [POST /api/pay] answers 200 exactly when [Number(amount)] is
    greater than zero and the phone, as a string, matches the pattern; every
    other request is answered 400. *)
Theorem X3_pay_status (e : env) (b : option body) (w : world) :
  (http_status (fst (pay e b w)) = 200 <->
   gt (Number (b_amount (body_or_empty b))) (Fin 0) = true
   /\ test phone_pattern (ToString (b_phone (body_or_empty b))) = true)
  /\ (http_status (fst (pay e b w)) = 200
      \/ http_status (fst (pay e b w)) = 400).
Proof.
  rewrite <- ServerClaims.validate_nil.
  destruct (validate_dec (b_amount (body_or_empty b))
              (b_phone (body_or_empty b))) as [Hv|Hv].
  - rewrite (pay_valid e b w Hv). cbn [fst http_status]. split; [|by left].
    split; [by intros _|reflexivity].
  - rewrite (pay_invalid e b w Hv). cbn [fst http_status]. split; [|by right].
    split; [discriminate|intros H; by destruct Hv].
Qed.

Lemma X3_witness :
  http_status (fst (pay Samples.server_env Samples.valid_pay initial)) = 200.
Proof.
  destruct (X3_pay_status Samples.server_env Samples.valid_pay initial)
    as [H _].
  apply H. split; [reflexivity|vm_compute; reflexivity].
Defined.

(** X4: an accepted payment request schedules exactly one completion timer,
    for the id it answers with, after those already pending; the store
    grows by one record when that id was free and keeps its size when the
    id was taken. *)
Theorem X4_pay_growth (e : env) (b : option body) (w : world) (r : payment) :
  json (fst (pay e b w)) = OkPayment r ->
  timers (snd (pay e b w)) =
    timers w ++ [{| delay := 2000; timer_id := id r |}]
  /\ (payments w !! id r = None ->
      size (payments (snd (pay e b w))) = S (size (payments w)))
  /\ (is_Some (payments w !! id r) ->
      size (payments (snd (pay e b w))) = size (payments w)).
Proof.
  intros H. destruct (pay_ok_inv e b w r H) as [Hv ->].
  rewrite (pay_valid e b w Hv). cbn [snd timers payments].
  split; [reflexivity|]. split; intros Hl.
  - by apply map_size_insert_None.
  - by apply map_size_insert_Some.
Qed.

Lemma X4_witness :
  length (timers Samples.after_one_pay) = 1%nat
  /\ size (payments Samples.after_one_pay) = 1%nat.
Proof.
  destruct (X4_pay_growth Samples.server_env Samples.valid_pay initial
              (created Samples.server_env
                 (body_or_empty Samples.valid_pay)))
    as (Ht & Hfresh & _).
  - rewrite pay_valid; [reflexivity|vm_compute; reflexivity].
  - split.
    + unfold Samples.after_one_pay. by rewrite Ht.
    + unfold Samples.after_one_pay. rewrite Hfresh; [reflexivity|].
      apply lookup_empty.
Defined.

Lemma on_timeout_spec now i ps :
  on_timeout now i ps =
  match ps !! i with
  | None => ps
  | Some r => <[i := completed now r]> ps
  end.
Proof. reflexivity. Qed.

Lemma created_well_formed e b :
  validate (b_amount b) (b_phone b) = [] ->
  well_formed_at (cryptoRandomId 20 (random e)) (created e b).
Proof.
  intros Hv. apply ServerClaims.validate_nil in Hv as [Ha Hp].
  repeat split; try done.
  cbn [created reference]. by destruct (b_reference b).
Qed.

Lemma step_well_formed w ev w' :
  step w ev w' ->
  (forall i r, payments w !! i = Some r -> well_formed_at i r) ->
  forall i r, payments w' !! i = Some r -> well_formed_at i r.
Proof.
  intros Hs Hok. destruct Hs as [e b w|j w|now d j before after w Ht].
  - destruct (validate_dec (b_amount (body_or_empty b))
                (b_phone (body_or_empty b))) as [Hv|Hv].
    + rewrite (pay_valid e b w Hv). cbn [snd payments]. intros i r Hi.
      destruct (decide (cryptoRandomId 20 (random e) = i)) as [<-|Hne].
      * rewrite lookup_insert_eq in Hi. injection Hi as <-.
        by apply created_well_formed.
      * rewrite lookup_insert_ne in Hi by done. by apply Hok.
    + by rewrite (pay_invalid e b w Hv).
  - unfold get_status. by destruct (payments w !! j).
  - cbn [payments]. intros i r Hi. rewrite on_timeout_spec in Hi.
    destruct (payments w !! j) as [r0|] eqn:Hj; [|by apply Hok].
    destruct (decide (j = i)) as [<-|Hne].
    + rewrite lookup_insert_eq in Hi. injection Hi as <-.
      destruct (Hok j r0 Hj) as (H1 & H2 & H3 & H4). by repeat split.
    + rewrite lookup_insert_ne in Hi by done. by apply Hok.
Qed.

(** X5: in every reachable state each record is stored under its own id
    and holds validated data: an amount greater than zero, a phone that
    matches the pattern and a reference that is not undefined. *)
Theorem X5_store_well_formed (w : world) :
  reachable w ->
  forall i r, payments w !! i = Some r -> well_formed_at i r.
Proof.
  intros [evs Hrun]. induction Hrun as [|evs w ev w' Hrun IH Hstep].
  - intros i r Hi. cbn in Hi. by rewrite lookup_empty in Hi.
  - by eapply step_well_formed.
Qed.

Lemma X5_witness :
  well_formed_at "AAAAAAAAAAAAAAAAAAAA"
    (created Samples.server_env (body_or_empty Samples.valid_pay)).
Proof.
  apply (X5_store_well_formed Samples.after_one_pay).
  - exists [EPay Samples.server_env Samples.valid_pay].
    apply (run_cons initial [] initial _ _ (run_nil initial)).
    apply step_pay.
  - unfold Samples.after_one_pay.
    rewrite pay_valid by (vm_compute; reflexivity).
    cbn [snd payments].
    change (cryptoRandomId 20 (random Samples.server_env))
      with "AAAAAAAAAAAAAAAAAAAA".
    apply lookup_insert_eq.
Defined.

Lemma step_keeps_records w ev w' i :
  step w ev w' -> is_Some (payments w !! i) -> is_Some (payments w' !! i).
Proof.
  intros Hs Hi. destruct Hs as [e b w|j w|now d j before after w Ht].
  - destruct (ServerFacts.pay_cases e b w)
      as [[_ ->]|[_ (r & _ & _ & _ & ->)]]; cbn [snd payments]; [done|].
    destruct (decide (id r = i)) as [<-|Hne].
    + rewrite lookup_insert_eq. eauto.
    + by rewrite lookup_insert_ne.
  - unfold get_status. by destruct (payments w !! j).
  - cbn [payments]. by apply ServerFacts.on_timeout_dom.
Qed.

Lemma step_size w ev w' :
  step w ev w' -> (size (payments w) <= size (payments w'))%nat.
Proof.
  intros Hs. destruct Hs as [e b w|j w|now d j before after w Ht].
  - destruct (ServerFacts.pay_cases e b w)
      as [[_ ->]|[_ (r & _ & _ & _ & ->)]]; cbn [snd payments]; [done|].
    rewrite map_size_insert. destruct (payments w !! id r); cbn; lia.
  - unfold get_status. by destruct (payments w !! j).
  - cbn [payments]. rewrite on_timeout_spec.
    destruct (payments w !! j) as [r0|] eqn:Hj; [|done].
    rewrite map_size_insert_Some by eauto. done.
Qed.

(** X6: no operation removes a record: along any run an id that is in the
    store stays in it, and the number of records never decreases. *)
Theorem X6_records_never_removed (w w' : world) (evs : list event) :
  run_from w evs w' ->
  (forall i, is_Some (payments w !! i) -> is_Some (payments w' !! i))
  /\ (size (payments w) <= size (payments w'))%nat.
Proof.
  induction 1 as [|evs w1 ev w2 Hrun [IH1 IH2] Hstep]; [by split|].
  split.
  - intros i Hi. eapply step_keeps_records; eauto.
  - pose proof (step_size _ _ _ Hstep). lia.
Qed.

Lemma X6_witness :
  is_Some
    (on_timeout (Samples.clock + 2000) "AAAAAAAAAAAAAAAAAAAA"
       (payments Samples.after_one_pay) !! "AAAAAAAAAAAAAAAAAAAA").
Proof.
  destruct (X6_records_never_removed Samples.after_one_pay
              {| payments :=
                   on_timeout (Samples.clock + 2000) "AAAAAAAAAAAAAAAAAAAA"
                     (payments Samples.after_one_pay);
                 timers := [] ++ [] |}
              [ETimer (Samples.clock + 2000) "AAAAAAAAAAAAAAAAAAAA"])
    as [H _].
  - apply (run_cons _ [] Samples.after_one_pay _ _ (run_nil _)).
    apply (step_timer (Samples.clock + 2000) completion_delay
             "AAAAAAAAAAAAAAAAAAAA" [] [] Samples.after_one_pay).
    vm_compute. reflexivity.
  - apply (H "AAAAAAAAAAAAAAAAAAAA").
    unfold Samples.after_one_pay.
    rewrite pay_valid by (vm_compute; reflexivity).
    cbn [snd payments].
    change (cryptoRandomId 20 (random Samples.server_env))
      with "AAAAAAAAAAAAAAAAAAAA".
    rewrite lookup_insert_eq. eauto.
Defined.

Lemma step_pending_timer w ev w' :
  step w ev w' ->
  (forall t, In t (timers w) -> delay t = completion_delay) ->
  (forall i r, payments w !! i = Some r -> status r = "PENDING" ->
     timer_pending i w) ->
  (forall t, In t (timers w') -> delay t = completion_delay)
  /\ (forall i r, payments w' !! i = Some r -> status r = "PENDING" ->
        timer_pending i w').
Proof.
  intros Hs Hdelay Hok.
  destruct Hs as [e b w|j w|now d j before after w Ht].
  - destruct (validate_dec (b_amount (body_or_empty b))
                (b_phone (body_or_empty b))) as [Hv|Hv].
    + rewrite (pay_valid e b w Hv). cbn [snd payments timers]. split.
      * intros t Hin. apply in_app_or in Hin as [Hin|[<-|[]]];
          [by apply Hdelay|reflexivity].
      * intros i r Hi Hst. unfold timer_pending. cbn [timers].
        apply in_or_app.
        destruct (decide (cryptoRandomId 20 (random e) = i)) as [<-|Hne].
        -- right. by left.
        -- left. rewrite lookup_insert_ne in Hi by done. by eapply Hok.
    + rewrite (pay_invalid e b w Hv). by split.
  - unfold get_status. destruct (payments w !! j); by split.
  - cbn [payments timers]. split.
    + intros t Hin. apply Hdelay. rewrite Ht.
      apply in_app_or in Hin as [Hin|Hin]; apply in_or_app;
        [by left|right; by right].
    + intros i r Hi Hst. rewrite on_timeout_spec in Hi.
      assert (Hcase : payments w !! i = Some r /\ j <> i).
      { destruct (payments w !! j) as [r0|] eqn:Hj.
        - destruct (decide (j = i)) as [<-|Hne].
          + rewrite lookup_insert_eq in Hi. injection Hi as <-.
            cbn in Hst. discriminate.
          + rewrite lookup_insert_ne in Hi by done. by split.
        - split; [exact Hi|]. intros <-. congruence. }
      destruct Hcase as [Hi' Hne].
      pose proof (Hok i r Hi' Hst) as Hin. unfold timer_pending in *.
      cbn [timers]. rewrite Ht in Hin.
      apply in_app_or in Hin as [Hin|[Heq|Hin]]; apply in_or_app.
      * by left.
      * injection Heq as _ Heq. by destruct Hne.
      * by right.
Qed.

(** X7: in every reachable state a record that is still PENDING has a
    completion timer pending for its id, with the 2000 ms delay: no record
    is left PENDING without a timer that will complete it. *)
Theorem X7_pending_has_timer (w : world) :
  reachable w ->
  forall i r, payments w !! i = Some r -> status r = "PENDING" ->
    timer_pending i w.
Proof.
  intros [evs Hrun].
  enough (H : (forall t, In t (timers w) -> delay t = completion_delay)
              /\ (forall i r, payments w !! i = Some r ->
                    status r = "PENDING" -> timer_pending i w))
    by apply H.
  induction Hrun as [|evs w ev w' Hrun IH Hstep].
  - split; [intros t []|].
    intros i r Hi. cbn in Hi. by rewrite lookup_empty in Hi.
  - destruct IH as [IH1 IH2]. by eapply step_pending_timer.
Qed.

Lemma X7_witness : timer_pending "AAAAAAAAAAAAAAAAAAAA" Samples.after_one_pay.
Proof.
  apply (X7_pending_has_timer Samples.after_one_pay) with
    (r := created Samples.server_env (body_or_empty Samples.valid_pay)).
  - exists [EPay Samples.server_env Samples.valid_pay].
    apply (run_cons initial [] initial _ _ (run_nil initial)).
    apply step_pay.
  - unfold Samples.after_one_pay.
    rewrite pay_valid by (vm_compute; reflexivity).
    cbn [snd payments].
    change (cryptoRandomId 20 (random Samples.server_env))
      with "AAAAAAAAAAAAAAAAAAAA".
    apply lookup_insert_eq.
  - reflexivity.
Defined.

Lemma same_fixed_fields_refl r : same_fixed_fields r r.
Proof. by repeat split. Qed.

Lemma same_fixed_fields_trans r1 r2 r3 :
  same_fixed_fields r1 r2 -> same_fixed_fields r2 r3 ->
  same_fixed_fields r1 r3.
Proof.
  intros (A1 & A2 & A3 & A4 & A5) (B1 & B2 & B3 & B4 & B5).
  repeat split; congruence.
Qed.

Lemma step_fixed_fields i w ev w' r :
  step w ev w' -> ~ redraws i ev -> payments w !! i = Some r ->
  exists r', payments w' !! i = Some r'
             /\ same_fixed_fields r r'
             /\ (status r = "SUCCESS" -> status r' = "SUCCESS")
             /\ (is_Some (completedAt r) -> is_Some (completedAt r')).
Proof.
  intros Hs Hno Hi. destruct Hs as [e b w|j w|now d j before after w Ht].
  - cbn in Hno. exists r.
    split; [|split; [apply same_fixed_fields_refl|by split]].
    destruct (validate_dec (b_amount (body_or_empty b))
                (b_phone (body_or_empty b))) as [Hv|Hv].
    + rewrite (pay_valid e b w Hv). cbn [snd payments].
      by rewrite lookup_insert_ne.
    + by rewrite (pay_invalid e b w Hv).
  - exists r. unfold get_status.
    split; [by destruct (payments w !! j)|].
    split; [apply same_fixed_fields_refl|by split].
  - cbn [payments]. rewrite on_timeout_spec.
    destruct (decide (j = i)) as [->|Hne].
    + rewrite Hi. exists (completed now r). rewrite lookup_insert_eq.
      split; [reflexivity|]. split; [by repeat split|].
      split; [reflexivity|]. intros _. cbn. eauto.
    + exists r. split.
      * destruct (payments w !! j); [by rewrite lookup_insert_ne|done].
      * split; [apply same_fixed_fields_refl|by split].
Qed.

(** X8: along any run in which no payment request draws the id of a stored
    record again, the record stays in the store with the same id, amount,
    phone, reference and [createdAt]; once it is SUCCESS it stays SUCCESS,
    and once [completedAt] is set it stays set. *)
Theorem X8_record_fields_fixed (w w' : world) (evs : list event)
    (i : string) (r : payment) :
  run_from w evs w' ->
  Forall (fun ev => ~ redraws i ev) evs ->
  payments w !! i = Some r ->
  exists r', payments w' !! i = Some r'
             /\ same_fixed_fields r r'
             /\ (status r = "SUCCESS" -> status r' = "SUCCESS")
             /\ (is_Some (completedAt r) -> is_Some (completedAt r')).
Proof.
  induction 1 as [|evs w1 ev w2 Hrun IH Hstep]; intros Hall Hi.
  - exists r. split; [exact Hi|].
    split; [apply same_fixed_fields_refl|by split].
  - inversion Hall as [|? ? Hev Hrest]; subst.
    destruct (IH Hrest Hi) as (r1 & Hr1 & Hf1 & Hs1 & Hc1).
    destruct (step_fixed_fields i w1 ev w2 r1 Hstep Hev Hr1)
      as (r2 & Hr2 & Hf2 & Hs2 & Hc2).
    exists r2. split; [exact Hr2|].
    split; [by eapply same_fixed_fields_trans|]. split; auto.
Qed.

Lemma X8_witness :
  exists r',
    on_timeout (Samples.clock + 2000) "AAAAAAAAAAAAAAAAAAAA"
      (payments Samples.after_one_pay) !! "AAAAAAAAAAAAAAAAAAAA" = Some r'
    /\ same_fixed_fields
         (created Samples.server_env (body_or_empty Samples.valid_pay)) r'.
Proof.
  destruct (X8_record_fields_fixed Samples.after_one_pay
              {| payments :=
                   on_timeout (Samples.clock + 2000) "AAAAAAAAAAAAAAAAAAAA"
                     (payments Samples.after_one_pay);
                 timers := [] ++ [] |}
              [ETimer (Samples.clock + 2000) "AAAAAAAAAAAAAAAAAAAA"]
              "AAAAAAAAAAAAAAAAAAAA"
              (created Samples.server_env (body_or_empty Samples.valid_pay)))
    as (r' & Hr' & Hf & _).
  - apply (run_cons _ [] Samples.after_one_pay _ _ (run_nil _)).
    apply (step_timer (Samples.clock + 2000) completion_delay
             "AAAAAAAAAAAAAAAAAAAA" [] [] Samples.after_one_pay).
    vm_compute. reflexivity.
  - constructor; [|constructor]. intros H. exact H.
  - unfold Samples.after_one_pay.
    rewrite pay_valid by (vm_compute; reflexivity).
    cbn [snd payments].
    change (cryptoRandomId 20 (random Samples.server_env))
      with "AAAAAAAAAAAAAAAAAAAA".
    apply lookup_insert_eq.
  - exists r'. by split.
Defined.

(** X9: payment, completion and lookup compose: after an accepted payment
    request the completion timer for its id is pending, and once that timer
    has fired at time [now], [GET /api/status/:id] answers 200 with the
    record that was created, now SUCCESS and completed at [now]. *)
Theorem X9_pay_complete_lookup (e : env) (b : option body) (w w2 : world)
    (r : payment) (now : Z) :
  json (fst (pay e b w)) = OkPayment r ->
  step (snd (pay e b w)) (ETimer now (id r)) w2 ->
  timer_pending (id r) (snd (pay e b w))
  /\ fst (get_status (id r) w2) =
     {| http_status := 200; json := OkPayment (completed now r) |}.
Proof.
  intros H Hstep. destruct (pay_ok_inv e b w r H) as [Hv ->].
  rewrite (pay_valid e b w Hv) in Hstep |- *. split.
  - unfold timer_pending. cbn [snd timers created id].
    apply in_or_app. right. by left.
  - inversion Hstep as [| |n d j before after w0 Ht]; subst.
    unfold get_status. cbn [payments snd created id].
    rewrite on_timeout_spec, lookup_insert_eq, lookup_insert_eq.
    reflexivity.
Qed.

Lemma X9_witness :
  fst (get_status "AAAAAAAAAAAAAAAAAAAA"
         {| payments :=
              on_timeout (Samples.clock + 2000) "AAAAAAAAAAAAAAAAAAAA"
                (payments Samples.after_one_pay);
            timers := [] ++ [] |}) =
  {| http_status := 200;
     json :=
       OkPayment
         (completed (Samples.clock + 2000)
            (created Samples.server_env (body_or_empty Samples.valid_pay)))
  |}.
Proof.
  destruct (X9_pay_complete_lookup Samples.server_env Samples.valid_pay
              initial
              {| payments :=
                   on_timeout (Samples.clock + 2000) "AAAAAAAAAAAAAAAAAAAA"
                     (payments Samples.after_one_pay);
                 timers := [] ++ [] |}
              (created Samples.server_env (body_or_empty Samples.valid_pay))
              (Samples.clock + 2000)) as [_ H].
  - rewrite pay_valid; [reflexivity|vm_compute; reflexivity].
  - apply (step_timer (Samples.clock + 2000) completion_delay
             "AAAAAAAAAAAAAAAAAAAA" [] [] Samples.after_one_pay).
    vm_compute. reflexivity.
  - exact H.
Defined.

(** X10: the timer callback never adds or removes an id: the set of stored
    ids is the same after it, a callback for an id that is not in the store
    changes nothing, and the records under other ids are untouched. *)
Theorem X10_timer_keeps_ids (now : Z) (i : string)
    (ps : gmap string payment) :
  dom (on_timeout now i ps) = dom ps
  /\ (ps !! i = None -> on_timeout now i ps = ps)
  /\ (forall j, j <> i -> on_timeout now i ps !! j = ps !! j).
Proof.
  rewrite on_timeout_spec. destruct (ps !! i) as [r|] eqn:Hi.
  - split; [apply dom_insert_lookup_L; eauto|].
    split; [discriminate|]. intros j Hj. by rewrite lookup_insert_ne.
  - by repeat split.
Qed.

Lemma X10_witness :
  on_timeout Samples.clock "nope" (payments Samples.after_one_pay)
  = payments Samples.after_one_pay.
Proof.
  destruct (X10_timer_keeps_ids Samples.clock "nope"
              (payments Samples.after_one_pay)) as (_ & H & _).
  apply H. unfold Samples.after_one_pay.
  rewrite pay_valid by (vm_compute; reflexivity).
  cbn [snd payments]. rewrite lookup_insert_ne by (vm_compute; discriminate).
  apply lookup_empty.
Defined.

End ServerExtras.

(** ** Further properties of index.js *)

Module IndexExtras.
Import JS Index Notions.

Lemma getAccessToken_run c e w :
  getAccessToken c e w =
  (match token_of e with
   | Some tok => Return tok
   | None => Throw (new_Error (auth_failure_text e))
   end, w ++ [token_effect c]).
Proof.
  unfold getAccessToken, try_catch, bind, perform, throw, ret, token_of,
    auth_failure_text, token_effect.
  destruct (auth_result e) as [data|err]; [|reflexivity].
  by destruct (ToBoolean (access_token data)).
Qed.

Lemma initiateSTKPush_run c e tok phone amount w :
  initiateSTKPush c e tok phone amount w =
  (match push_result e with
   | Responded data => Return data
   | Failed err =>
       Throw (new_Error ("STK push failed: " +:+ error_text err))
   end,
   w ++ [HttpPost (stkPush (getEndpoints c))
           (make_payload c (push_time e) phone amount)
           ("Bearer " +:+ ToString tok)]).
Proof.
  unfold initiateSTKPush, try_catch, bind, perform, throw, ret.
  by destruct (push_result e).
Qed.

Lemma accepted_checks b :
  accepted b = true ->
  missing_field b = false /\ phone_bad (b_phone b) = false
  /\ amount_bad (parseInt (b_amount b)) = false.
Proof.
  unfold accepted. intros H. apply andb_true_iff in H as [H Ha].
  apply andb_true_iff in H as [Hm Hp].
  by apply negb_true_iff in Hm, Hp, Ha.
Qed.

Lemma stk_push_run c e b w :
  accepted b = true ->
  stk_push c e b w = (Return (accepted_reply e), w ++ accepted_effects c e b).
Proof.
  intros Hacc. destruct (accepted_checks b Hacc) as (Hm & Hp & Ha).
  unfold stk_push. rewrite Hm, Hp, Ha.
  unfold accepted_reply, accepted_effects.
  unfold try_catch at 1. unfold bind at 1. unfold writeLog.
  destruct (append_failure e) as [err|].
  - unfold throw, respond, ret. by rewrite app_nil_r.
  - unfold perform at 1. unfold bind at 1.
    rewrite getAccessToken_run.
    destruct (token_of e) as [tok|].
    + unfold bind. rewrite initiateSTKPush_run.
      unfold log_effect, token_effect, push_effect.
      destruct (push_result e) as [data|err].
      * destruct (is_string_0 (ResponseCode data)); unfold respond, ret;
          by rewrite <- !app_assoc.
      * unfold respond, ret. by rewrite <- !app_assoc.
    + unfold respond, ret, log_effect. by rewrite <- !app_assoc.
Qed.

Lemma is_empty_spec s : is_empty s = true <-> s = EmptyString.
Proof. destruct s; split; intros H; done. Qed.

Lemma or_default_nonempty v d : d <> EmptyString -> or_default v d <> EmptyString.
Proof.
  intros Hd. unfold or_default. destruct v as [s|]; [|exact Hd].
  destruct s; [exact Hd|discriminate].
Qed.

(** X11: startup yields no configuration (the process exits) exactly when
    CONSUMER_KEY, CONSUMER_SECRET or PASSKEY is absent or empty; a loaded
    configuration carries those three variables as they are and has no
    empty field, the defaults filling what is unset. *)
Theorem X11_load_config (pe : process_env) :
  (load_config pe = None <->
   unset (CONSUMER_KEY pe) || unset (CONSUMER_SECRET pe)
   || unset (PASSKEY pe) = true)
  /\ (forall c, load_config pe = Some c ->
        CONSUMER_KEY pe = Some (consumerKey c)
        /\ CONSUMER_SECRET pe = Some (consumerSecret c)
        /\ PASSKEY pe = Some (passkey c)
        /\ consumerKey c <> EmptyString
        /\ consumerSecret c <> EmptyString
        /\ passkey c <> EmptyString
        /\ shortcode c <> EmptyString
        /\ callbackURL c <> EmptyString
        /\ accountRef c <> EmptyString).
Proof.
  unfold load_config, unset. split.
  - destruct (CONSUMER_KEY pe) as [key|], (CONSUMER_SECRET pe) as [secret|],
      (PASSKEY pe) as [pk|];
      try (split; [intros _; by rewrite ?orb_true_r|reflexivity]).
    destruct (is_empty key || is_empty secret || is_empty pk);
      split; (reflexivity || discriminate).
  - intros c.
    destruct (CONSUMER_KEY pe) as [key|], (CONSUMER_SECRET pe) as [secret|],
      (PASSKEY pe) as [pk|]; try discriminate.
    destruct (is_empty key) eqn:Hk; [discriminate|].
    destruct (is_empty secret) eqn:Hs; [discriminate|].
    destruct (is_empty pk) eqn:Hp; [discriminate|].
    cbn [orb]. intros [= <-]. cbn [consumerKey consumerSecret passkey
      shortcode callbackURL accountRef].
    repeat split;
      try (intros H; apply is_empty_spec in H; congruence);
      try (apply or_default_nonempty; discriminate).
Qed.

Lemma X11_witness :
  load_config
    {| PORT := None; SANDBOX := Some "true"; CONSUMER_KEY := Some "key";
       CONSUMER_SECRET := Some ""; SHORTCODE := None; PASSKEY := Some "pk";
       CALLBACK_URL := None; ACCOUNT_REF := None |} = None.
Proof.
  destruct (X11_load_config
              {| PORT := None; SANDBOX := Some "true";
                 CONSUMER_KEY := Some "key"; CONSUMER_SECRET := Some "";
                 SHORTCODE := None; PASSKEY := Some "pk";
                 CALLBACK_URL := None; ACCOUNT_REF := None |}) as [H _].
  apply H. reflexivity.
Defined.

(** X12: [getAccessToken] sends exactly one GET to the token endpoint,
    whatever comes back; the token it returns is the provider's
    [access_token] and is truthy; and every error it throws is a fresh
    [Error] whose message is "Authentication failed: " followed by the
    provider's [errorMessage] when there is one, else by the transport
    error's message, else by "Failed to obtain access token". *)
Theorem X12_getAccessToken (c : config) (e : env) (w : world) :
  snd (getAccessToken c e w) = w ++ [token_effect c]
  /\ (forall tok, fst (getAccessToken c e w) = Return tok ->
        ToBoolean tok = true
        /\ exists data, auth_result e = Responded data
                        /\ access_token data = tok)
  /\ (forall err, fst (getAccessToken c e w) = Throw err ->
        response_errorMessage err = VUndefined
        /\ ((exists data, auth_result e = Responded data
                          /\ ToBoolean (access_token data) = false
                          /\ message err =
                             "Authentication failed: Failed to obtain access token")
            \/ (exists err0, auth_result e = Failed err0
                  /\ message err =
                     "Authentication failed: " +:+
                     (if ToBoolean (response_errorMessage err0)
                      then ToString (response_errorMessage err0)
                      else message err0)))).
Proof.
  rewrite getAccessToken_run. cbn [fst snd]. split; [reflexivity|].
  unfold token_of, auth_failure_text.
  destruct (auth_result e) as [data|err0].
  - destruct (ToBoolean (access_token data)) eqn:Htok; split.
    + intros tok [= <-]. split; [exact Htok|]. by exists data.
    + discriminate.
    + discriminate.
    + intros err [= <-]. split; [reflexivity|]. left. by exists data.
  - split; [discriminate|].
    intros err [= <-]. split; [reflexivity|]. right. by exists err0.
Qed.

Lemma X12_witness :
  fst (getAccessToken Samples.config Samples.env []) = Return (VString "token").
Proof.
  destruct (X12_getAccessToken Samples.config Samples.env []) as (_ & H & _).
  destruct (fst (getAccessToken Samples.config Samples.env [])) as [tok|err]
    eqn:Hrun.
  - destruct (H tok eq_refl) as (_ & data & Hd & <-).
    injection Hd as <-. reflexivity.
  - discriminate Hrun.
Defined.

(** X13: [initiateSTKPush] sends exactly one POST, carrying the payload and
    the bearer token, whatever comes back; it returns the provider's
    acknowledgment unchanged when the provider answers; and when the call
    fails it throws a fresh [Error] whose message is "STK push failed: "
    followed by the provider's [errorMessage] when there is one, else by
    the transport error's message. *)
Theorem X13_initiateSTKPush (c : config) (e : env) (tok phone : value)
    (amount : number) (w : world) :
  snd (initiateSTKPush c e tok phone amount w) =
    w ++ [HttpPost (stkPush (getEndpoints c))
            (make_payload c (push_time e) phone amount)
            ("Bearer " +:+ ToString tok)]
  /\ (forall data, fst (initiateSTKPush c e tok phone amount w) = Return data
        <-> push_result e = Responded data)
  /\ (forall err, fst (initiateSTKPush c e tok phone amount w) = Throw err ->
        response_errorMessage err = VUndefined
        /\ exists err0, push_result e = Failed err0
             /\ message err =
                "STK push failed: " +:+
                (if ToBoolean (response_errorMessage err0)
                 then ToString (response_errorMessage err0)
                 else message err0)).
Proof.
  rewrite initiateSTKPush_run. cbn [fst snd]. split; [reflexivity|].
  destruct (push_result e) as [d|err0]; split.
  - intros data. split; intros [= <-]; reflexivity.
  - discriminate.
  - intros data. split; discriminate.
  - intros err [= <-]. split; [reflexivity|]. by exists err0.
Qed.

Lemma X13_witness :
  fst (initiateSTKPush Samples.config Samples.env (VString "token")
         (VString "254712345678") (number_of_Z 100) [])
  = Return {| ResponseCode := VString "0";
              CheckoutRequestID := VString "ws_CO_1";
              ResponseDescription := VString "Success" |}.
Proof.
  destruct (X13_initiateSTKPush Samples.config Samples.env (VString "token")
              (VString "254712345678") (number_of_Z 100) []) as (_ & H & _).
  apply H. reflexivity.
Defined.

Lemma is_string_0_spec x : is_string_0 x = true <-> x = VString "0".
Proof.
  destruct x as [| |bb|n|s0]; cbn [is_string_0]; try (split; discriminate).
  rewrite String.eqb_eq. split; [by intros ->|by intros [= ->]].
Qed.

Lemma accepted_reply_status e :
  http_status (accepted_reply e) = 200 \/ http_status (accepted_reply e) = 500.
Proof.
  unfold accepted_reply.
  destruct (append_failure e); [by right|].
  destruct (token_of e); [|by right].
  destruct (push_result e) as [data|err]; [|by right].
  destruct (is_string_0 (ResponseCode data)); [by left|by right].
Qed.

Lemma stk_push_returns c e b w :
  exists r, fst (stk_push c e b w) = Return r.
Proof.
  destruct (accepted b) eqn:Hacc.
  - rewrite (stk_push_run c e b w Hacc). by eexists.
  - rewrite (IndexClaims.stk_push_rejected c e b w Hacc). by eexists.
Qed.

(** X14: [POST /stk_push] never lets an error escape: for every request and
    every behaviour of the file system and of the provider it ends with a
    response, whose status is 200, 400 or 500; the status is 400 exactly
    when the request fails one of the three checks. *)
Theorem X14_stk_push_always_answers (c : config) (e : env) (b : body)
    (w : world) :
  exists r w',
    stk_push c e b w = (Return r, w')
    /\ (http_status r = 200 \/ http_status r = 400 \/ http_status r = 500)
    /\ (http_status r = 400 <-> accepted b = false).
Proof.
  destruct (accepted b) eqn:Hacc.
  - rewrite (stk_push_run c e b w Hacc). eexists _, _. split; [reflexivity|].
    destruct (accepted_reply_status e) as [H|H]; rewrite H.
    + split; [by left|]. split; discriminate.
    + split; [by right; right|]. split; discriminate.
  - rewrite (IndexClaims.stk_push_rejected c e b w Hacc).
    eexists _, _. split; [reflexivity|]. cbn [http_status].
    split; [by right; left|]. by split.
Qed.

Lemma X14_witness :
  exists r w',
    stk_push Samples.config Samples.env_disk_full
      (Samples.push_body (VString "254712345678") (VString "100")) []
    = (Return r, w')
    /\ http_status r <> 400.
Proof.
  destruct (X14_stk_push_always_answers Samples.config Samples.env_disk_full
              (Samples.push_body (VString "254712345678") (VString "100")) [])
    as (r & w' & Hrun & _ & H400).
  exists r, w'. split; [exact Hrun|].
  intros H. apply H400 in H. vm_compute in H. discriminate H.
Defined.

(** X15: the response to [POST /stk_push] is 200 exactly when the request
    passes the checks, the log line is written, a token is obtained and the
    provider answers the push with [ResponseCode] equal to the string "0";
    the response is then status 200 with the provider's [CheckoutRequestID]
    as [checkout_id], "0" as [response_code] and the fixed message. *)
Theorem X15_stk_push_success (c : config) (e : env) (b : body) (w : world)
    (r : response) :
  fst (stk_push c e b w) = Return r ->
  (http_status r = 200 <->
   accepted b = true /\ append_failure e = None /\ is_Some (token_of e)
   /\ exists data,
        push_result e = Responded data /\ ResponseCode data = VString "0")
  /\ (forall data,
        accepted b = true -> append_failure e = None ->
        is_Some (token_of e) ->
        push_result e = Responded data -> ResponseCode data = VString "0" ->
        r = {| http_status := 200;
               json := StkOk (CheckoutRequestID data) (VString "0")
                         "STK push initiated successfully" |}).
Proof.
  intros Hrun. destruct (accepted b) eqn:Hacc.
  - rewrite (stk_push_run c e b w Hacc) in Hrun. cbn [fst] in Hrun.
    injection Hrun as <-. unfold accepted_reply.
    destruct (append_failure e) as [err|].
    { split; [|by intros data _ H].
      split; [discriminate|]. by intros (_ & H & _). }
    destruct (token_of e) as [tok|].
    2: { split; [|intros data _ _ [x H]; discriminate].
         split; [discriminate|]. intros (_ & _ & [x H] & _). discriminate. }
    destruct (push_result e) as [data|err].
    2: { split; [|intros data _ _ _ H; discriminate].
         split; [discriminate|]. intros (_ & _ & _ & d & H & _).
         discriminate. }
    destruct (is_string_0 (ResponseCode data)) eqn:H0.
    + apply is_string_0_spec in H0. split.
      * split; [|reflexivity]. intros _. repeat split; eauto.
      * intros d _ _ _ [= <-] _. by rewrite H0.
    + split.
      * split; [discriminate|]. intros (_ & _ & _ & d & [= <-] & Hd).
        apply is_string_0_spec in Hd. congruence.
      * intros d _ _ _ [= <-] Hd. apply is_string_0_spec in Hd. congruence.
  - rewrite (IndexClaims.stk_push_rejected c e b w Hacc) in Hrun.
    cbn [fst] in Hrun. injection Hrun as <-. cbn [http_status].
    split; [|intros data H; discriminate].
    split; [discriminate|]. by intros [H _].
Qed.

Lemma X15_witness :
  exists r,
    fst (stk_push Samples.config Samples.env
           (Samples.push_body (VString "254712345678") (VString "100")) [])
    = Return r
    /\ http_status r = 200
    /\ r = {| http_status := 200;
              json := StkOk (VString "ws_CO_1") (VString "0")
                        "STK push initiated successfully" |}.
Proof.
  destruct (stk_push_returns Samples.config Samples.env
              (Samples.push_body (VString "254712345678") (VString "100")) [])
    as (r & Hrun).
  exists r. split; [exact Hrun|].
  destruct (X15_stk_push_success Samples.config Samples.env
              (Samples.push_body (VString "254712345678") (VString "100")) []
              r Hrun) as [Hiff Hbody].
  split.
  - apply Hiff.
    split; [vm_compute; reflexivity|]. split; [reflexivity|].
    split; [by eexists|]. eexists. split; reflexivity.
  - apply (Hbody {| ResponseCode := VString "0";
                    CheckoutRequestID := VString "ws_CO_1";
                    ResponseDescription := VString "Success" |}).
    + vm_compute. reflexivity.
    + reflexivity.
    + by eexists.
    + reflexivity.
    + reflexivity.
Defined.

Lemma posted_app w1 w2 : posted (w1 ++ w2) = posted w1 ++ posted w2.
Proof. unfold posted. apply flat_map_app. Qed.

(** X16: when a request passes the checks but the log line cannot be
    written, the response is 500 with the file-system error's message, and
    nothing is sent to the provider: no token request, no push. *)
Theorem X16_log_failure_stops_push (c : config) (e : env) (b : body)
    (w : world) (err : error) :
  accepted b = true ->
  append_failure e = Some err ->
  stk_push c e b w =
  (Return {| http_status := 500; json := StkError (VString (message err)) |},
   w).
Proof.
  intros Hacc Hlog. rewrite (stk_push_run c e b w Hacc).
  unfold accepted_reply, accepted_effects. rewrite Hlog.
  by rewrite app_nil_r.
Qed.

Lemma X16_witness :
  stk_push Samples.config Samples.env_disk_full
    (Samples.push_body (VString "254712345678") (VString "100")) []
  = (Return {| http_status := 500;
               json := StkError (VString "ENOSPC: no space left on device") |},
     []).
Proof.
  apply (X16_log_failure_stops_push Samples.config Samples.env_disk_full
           (Samples.push_body (VString "254712345678") (VString "100")) []
           (new_Error "ENOSPC: no space left on device")).
  - vm_compute. reflexivity.
  - reflexivity.
Defined.

(** X17: when a request passes the checks and is logged but no token is
    obtained (the call fails, or the answer has no truthy [access_token]),
    the response is 500 with the "Authentication failed: ..." message, and
    the push is never submitted: the only effects are the log line and the
    token request. *)
Theorem X17_auth_failure_stops_push (c : config) (e : env) (b : body)
    (w : world) :
  accepted b = true ->
  append_failure e = None ->
  token_of e = None ->
  stk_push c e b w =
  (Return {| http_status := 500;
             json := StkError (VString (auth_failure_text e)) |},
   w ++ [log_effect e b; token_effect c])
  /\ posted (snd (stk_push c e b w)) = posted w.
Proof.
  intros Hacc Hlog Htok.
  rewrite (stk_push_run c e b w Hacc).
  unfold accepted_reply, accepted_effects. rewrite Hlog, Htok.
  split; [reflexivity|]. cbn [snd]. rewrite posted_app. cbn.
  apply app_nil_r.
Qed.

Lemma X17_witness :
  fst (stk_push Samples.config
         {| log_time := Samples.clock; push_time := Samples.clock;
            append_failure := None;
            auth_result :=
              Failed {| message := "Request failed with status code 400";
                        response_errorMessage := VString "Bad credentials" |};
            push_result := Samples.accepted_push |}
         (Samples.push_body (VString "254712345678") (VString "100")) [])
  = Return {| http_status := 500;
              json :=
                StkError (VString "Authentication failed: Bad credentials") |}.
Proof.
  destruct (X17_auth_failure_stops_push Samples.config
              {| log_time := Samples.clock; push_time := Samples.clock;
                 append_failure := None;
                 auth_result :=
                   Failed
                     {| message := "Request failed with status code 400";
                        response_errorMessage := VString "Bad credentials" |};
                 push_result := Samples.accepted_push |}
              (Samples.push_body (VString "254712345678") (VString "100")) [])
    as [H _].
  - vm_compute. reflexivity.
  - reflexivity.
  - reflexivity.
  - by rewrite H.
Defined.

(** X18: the effects of [POST /stk_push] are added after those already
    performed and are nothing, or the log line and the token request, or
    those two and the push request, in that order: a push is never
    submitted without the request having been logged and a token having
    been obtained for it. *)
Theorem X18_stk_push_effects (c : config) (e : env) (b : body) (w : world) :
  exists added,
    snd (stk_push c e b w) = w ++ added
    /\ (added = nil
        \/ added = [log_effect e b; token_effect c]
        \/ exists tok,
             token_of e = Some tok /\ accepted b = true
             /\ added = [log_effect e b; token_effect c;
                         push_effect c e b tok]).
Proof.
  destruct (accepted b) eqn:Hacc.
  - rewrite (stk_push_run c e b w Hacc). cbn [snd].
    exists (accepted_effects c e b). split; [reflexivity|].
    unfold accepted_effects.
    destruct (append_failure e); [by left|].
    destruct (token_of e) as [tok|]; [|by right; left].
    right. right. by exists tok.
  - rewrite (IndexClaims.stk_push_rejected c e b w Hacc). cbn [snd].
    exists nil. split; [by rewrite app_nil_r|by left].
Qed.

(** X19: every payload [POST /stk_push] sends to the provider carries the
    request's phone, unchanged, as both [PartyA] and [PhoneNumber], a phone
    that matches the 2547XXXXXXXX pattern, and as [Amount] an integer
    between 1 and 150000. *)
Theorem X19_only_validated_pushes (c : config) (e : env) (b : body)
    (w : world) (p : stk_payload) :
  In p (posted (snd (stk_push c e b w))) ->
  In p (posted w)
  \/ (PartyA p = b_phone b /\ PhoneNumber p = b_phone b
      /\ test phone_pattern (ToString (PartyA p)) = true
      /\ exists k, 1 <= k <= 150000 /\ Amount p = Fin (inject_Z k)).
Proof.
  intros Hin. destruct (accepted b) eqn:Hacc.
  - rewrite (stk_push_run c e b w Hacc) in Hin. cbn [snd] in Hin.
    rewrite posted_app in Hin. apply in_app_or in Hin as [Hin|Hin];
      [by left|right].
    unfold accepted_effects in Hin.
    destruct (append_failure e); [by destruct Hin|].
    destruct (token_of e) as [tok|]; [|by destruct Hin].
    cbn in Hin. destruct Hin as [<-|[]].
    destruct (accepted_checks b Hacc) as (_ & Hp & Ha).
    cbn [make_payload PartyA PhoneNumber Amount].
    split; [reflexivity|]. split; [reflexivity|]. split.
    + unfold phone_bad in Hp. by apply negb_false_iff in Hp.
    + apply NumberFacts.provider_amount_range in Ha as (k & Hk & Hrange).
      exists k. split; [exact Hrange|].
      by apply NumberFacts.provider_amount_value.
  - rewrite (IndexClaims.stk_push_rejected c e b w Hacc) in Hin. by left.
Qed.

Lemma X19_witness :
  exists k, 1 <= k <= 150000
    /\ Amount (make_payload Samples.config Samples.clock
                 (VString "254712345678") (parseInt (VString "100.99")))
       = Fin (inject_Z k).
Proof.
  destruct (X19_only_validated_pushes Samples.config Samples.env
              (Samples.push_body (VString "254712345678") (VString "100.99"))
              []
              (make_payload Samples.config Samples.clock
                 (VString "254712345678") (parseInt (VString "100.99"))))
    as [[]|(_ & _ & _ & H)].
  - rewrite stk_push_run by (vm_compute; reflexivity).
    cbn. left. reflexivity.
  - exact H.
Defined.

(** X20: when the provider answers the push with a [ResponseCode] other
    than the string "0", the response is 500 and its [error] is the
    provider's [ResponseDescription] when that is truthy, else
    "STK push failed". *)
Theorem X20_provider_rejection (c : config) (e : env) (b : body) (w : world)
    (tok : value) (data : stk_data) :
  accepted b = true ->
  append_failure e = None ->
  token_of e = Some tok ->
  push_result e = Responded data ->
  ResponseCode data <> VString "0" ->
  stk_push c e b w =
  (Return
     {| http_status := 500;
        json :=
          StkError
            (if ToBoolean (ResponseDescription data)
             then ResponseDescription data
             else VString "STK push failed") |},
   w ++ [log_effect e b; token_effect c; push_effect c e b tok]).
Proof.
  intros Hacc Hlog Htok Hpush Hcode.
  rewrite (stk_push_run c e b w Hacc).
  unfold accepted_reply, accepted_effects. rewrite Hlog, Htok, Hpush.
  destruct (is_string_0 (ResponseCode data)) eqn:H0; [|reflexivity].
  apply is_string_0_spec in H0. by destruct Hcode.
Qed.

Lemma X20_witness :
  fst (stk_push Samples.config
         {| log_time := Samples.clock; push_time := Samples.clock;
            append_failure := None;
            auth_result := Samples.token;
            push_result :=
              Responded
                {| ResponseCode := VString "1";
                   CheckoutRequestID := VUndefined;
                   ResponseDescription := VString "Insufficient funds" |} |}
         (Samples.push_body (VString "254712345678") (VString "100")) [])
  = Return {| http_status := 500;
              json := StkError (VString "Insufficient funds") |}.
Proof.
  rewrite (X20_provider_rejection Samples.config _
             (Samples.push_body (VString "254712345678") (VString "100")) []
             (VString "token")
             {| ResponseCode := VString "1";
                CheckoutRequestID := VUndefined;
                ResponseDescription := VString "Insufficient funds" |}).
  - reflexivity.
  - vm_compute. reflexivity.
  - reflexivity.
  - reflexivity.
  - reflexivity.
  - discriminate.
Defined.

(** X21: when the push call itself fails, the response is 500 and its
    [error] is "STK push failed: " followed by the provider's
    [errorMessage] when there is one, else by the transport error's
    message; the raw error never reaches the caller. *)
Theorem X21_push_transport_failure (c : config) (e : env) (b : body)
    (w : world) (tok : value) (err : error) :
  accepted b = true ->
  append_failure e = None ->
  token_of e = Some tok ->
  push_result e = Failed err ->
  stk_push c e b w =
  (Return
     {| http_status := 500;
        json :=
          StkError
            (VString
               ("STK push failed: " +:+
                (if ToBoolean (response_errorMessage err)
                 then ToString (response_errorMessage err)
                 else message err))) |},
   w ++ [log_effect e b; token_effect c; push_effect c e b tok]).
Proof.
  intros Hacc Hlog Htok Hpush.
  rewrite (stk_push_run c e b w Hacc).
  unfold accepted_reply, accepted_effects. by rewrite Hlog, Htok, Hpush.
Qed.

Lemma X21_witness :
  fst (stk_push Samples.config
         {| log_time := Samples.clock; push_time := Samples.clock;
            append_failure := None;
            auth_result := Samples.token;
            push_result := Failed (new_Error "connect ETIMEDOUT") |}
         (Samples.push_body (VString "254712345678") (VString "100")) [])
  = Return {| http_status := 500;
              json :=
                StkError (VString "STK push failed: connect ETIMEDOUT") |}.
Proof.
  rewrite (X21_push_transport_failure Samples.config _
             (Samples.push_body (VString "254712345678") (VString "100")) []
             (VString "token") (new_Error "connect ETIMEDOUT")).
  - reflexivity.
  - vm_compute. reflexivity.
  - reflexivity.
  - reflexivity.
  - reflexivity.
Defined.

End IndexExtras.

(** ** The format of the push timestamp *)

Module TimestampFormat.
Import JS Notions.

Lemma all_from_spec p n : forall lo,
  all_from p lo n = true ->
  forall v, lo <= v < lo + Z.of_nat n -> p v = true.
Proof.
  induction n as [|n IH]; intros lo H v Hv; [lia|].
  cbn [all_from] in H. apply andb_true_iff in H as [H0 H1].
  destruct (Z.eq_dec v lo) as [->|Hne]; [exact H0|].
  apply (IH (lo + 1) H1). lia.
Qed.

Lemma pad2_length v : 0 <= v < 100 -> String.length (pad 2 v) = 2%nat.
Proof.
  intros Hv. apply Nat.eqb_eq.
  apply (all_from_spec (fun v => (String.length (pad 2 v) =? 2)%nat) 100 0);
    [vm_compute; reflexivity|lia].
Qed.

Lemma pad4_length v : 0 <= v < 10000 -> String.length (pad 4 v) = 4%nat.
Proof.
  intros Hv. apply Nat.eqb_eq.
  apply (all_from_spec (fun v => (String.length (pad 4 v) =? 4)%nat)
           (Z.to_nat 10000) 0);
    [vm_compute; reflexivity|rewrite Z2Nat.id; lia].
Qed.

Lemma estimate_bracket day :
  DayFromYear (1970 + day * 400 / 146097 - 1) <= day
  < DayFromYear (1970 + day * 400 / 146097 + 2).
Proof. unfold DayFromYear. Z.to_euclidean_division_equations. lia. Qed.

Lemma DayFromYear_next y : DayFromYear y < DayFromYear (y + 1).
Proof. unfold DayFromYear. Z.to_euclidean_division_equations. lia. Qed.

Lemma year_length y :
  DayFromYear (y + 1) - DayFromYear y = 365 + (if InLeapYear y then 1 else 0).
Proof.
  unfold DayFromYear, InLeapYear.
  destruct (y mod 4 =? 0) eqn:H4; destruct (y mod 100 =? 0) eqn:H100;
    destruct (y mod 400 =? 0) eqn:H400; cbn;
    rewrite ?Z.eqb_eq, ?Z.eqb_neq in *;
    Z.to_euclidean_division_equations; lia.
Qed.

Lemma year_adjust_stays fuel day y :
  DayFromYear y <= day < DayFromYear (y + 1) ->
  year_adjust (S fuel) day y = y.
Proof.
  intros [Hlo Hhi]. cbn [year_adjust].
  replace (day <? DayFromYear y) with false by (symmetry; apply Z.ltb_ge; lia).
  by replace (DayFromYear (y + 1) <=? day) with false
    by (symmetry; apply Z.leb_gt; lia).
Qed.

(** [YearFromDay] finds the year the day falls in. *)
Lemma YearFromDay_bracket day :
  DayFromYear (YearFromDay day) <= day < DayFromYear (YearFromDay day + 1).
Proof.
  unfold YearFromDay.
  pose proof (estimate_bracket day) as Hest.
  set (y0 := 1970 + day * 400 / 146097) in *.
  pose proof (DayFromYear_next (y0 - 1)) as M1.
  pose proof (DayFromYear_next y0) as M2.
  pose proof (DayFromYear_next (y0 + 1)) as M3.
  replace (y0 - 1 + 1) with y0 in M1 by lia.
  replace (y0 + 1 + 1) with (y0 + 2) in M3 by lia.
  cbn [year_adjust].
  destruct (day <? DayFromYear y0) eqn:Hlt.
  - apply Z.ltb_lt in Hlt. fold (year_adjust 3 day (y0 - 1)).
    rewrite year_adjust_stays; replace (y0 - 1 + 1) with y0 by lia; lia.
  - apply Z.ltb_ge in Hlt.
    destruct (DayFromYear (y0 + 1) <=? day) eqn:Hge.
    + apply Z.leb_le in Hge. fold (year_adjust 3 day (y0 + 1)).
      rewrite year_adjust_stays;
        replace (y0 + 1 + 1) with (y0 + 2) by lia; lia.
    + apply Z.leb_gt in Hge. lia.
Qed.

Lemma year_in_range t :
  four_digit_year t -> 0 <= YearFromDay (Day t) <= 9999.
Proof.
  unfold four_digit_year. intros Ht.
  assert (Hday : -719528 <= Day t <= 2932896).
  { unfold Day, msPerDay. Z.to_euclidean_division_equations. lia. }
  pose proof (YearFromDay_bracket (Day t)) as Hb.
  revert Hb. generalize (YearFromDay (Day t)). intros y Hb.
  unfold DayFromYear in Hb. Z.to_euclidean_division_equations. lia.
Qed.

Lemma MonthAndDate_range (d : Z) (leap : bool) :
  0 <= d < 365 + (if leap then 1 else 0) ->
  0 <= fst (MonthAndDate d leap) <= 11
  /\ 1 <= snd (MonthAndDate d leap) <= 31.
Proof.
  intros Hd. unfold MonthAndDate.
  destruct leap;
    repeat match goal with
           | |- context [if ?c <? ?k then _ else _] =>
               destruct (Z.ltb_spec c k)
           end; cbn [fst snd]; lia.
Qed.

Lemma outside_digit x :
  is_digit x = true -> outside ["-"%char; ":"%char] x = true.
Proof.
  intros H. destruct (NumberFacts.is_digit_cases x H)
    as [->|[->|[->|[->|[->|[->|[->|[->|[->| ->]]]]]]]]]; reflexivity.
Qed.

Lemma filter_digits s :
  all_digits s = true ->
  List.filter (outside ["-"%char; ":"%char]) (chars_of s) = chars_of s.
Proof.
  unfold all_digits. intros H. apply forallb_filter_id.
  induction (chars_of s) as [|x l IH]; [reflexivity|].
  cbn [forallb] in *. apply andb_true_iff in H as [Hx Hl].
  by rewrite outside_digit, IH.
Qed.

Lemma filter_digits_app s l :
  all_digits s = true ->
  List.filter (outside ["-"%char; ":"%char]) (chars_of s ++ l) =
  chars_of s ++ List.filter (outside ["-"%char; ":"%char]) l.
Proof. intros H. by rewrite List.filter_app, filter_digits. Qed.

Lemma string_of_list_app l1 l2 :
  string_of_list_ascii (l1 ++ l2) =
  string_of_list_ascii l1 +:+ string_of_list_ascii l2.
Proof.
  induction l1 as [|x l1 IH]; [reflexivity|].
  change (String x (string_of_list_ascii (l1 ++ l2)) =
          String x (string_of_list_ascii l1 +:+ string_of_list_ascii l2)).
  by rewrite IH.
Qed.

Lemma forallb_dotless_app l1 l2 :
  forallb dotless (l1 ++ l2) = forallb dotless l1 && forallb dotless l2.
Proof. apply forallb_app. Qed.

(** With a four-digit year the timestamp is the digits of the date, [T],
    and the digits of the time. *)
Lemma make_timestamp_chars t :
  0 <= YearFromDay (Day t) <= 9999 ->
  chars_of (Index.make_timestamp t) =
  chars_of (date_digits t) ++ "T"%char :: chars_of (time_digits t).
Proof.
  intros Hy. unfold Index.make_timestamp, toISOString, date_digits,
    time_digits, year_string.
  replace ((0 <=? YearFromDay (Day t)) && (YearFromDay (Day t) <=? 9999))
    with true
    by (symmetry; apply andb_true_iff; split; apply Z.leb_le; lia).
  destruct (MonthAndDate _ _) as [m d].
  set (Y := pad 4 _). set (M := pad 2 (m + 1)). set (D := pad 2 d).
  set (H := pad 2 (_ / 3600000)). set (Mi := pad 2 (_ / 60000 mod 60)).
  set (S := pad 2 (_ / 1000 mod 60)). set (Ms := pad 3 _).
  assert (HY : all_digits Y = true) by apply TimestampFacts.pad_all_digits.
  assert (HM : all_digits M = true) by apply TimestampFacts.pad_all_digits.
  assert (HD : all_digits D = true) by apply TimestampFacts.pad_all_digits.
  assert (HH : all_digits H = true) by apply TimestampFacts.pad_all_digits.
  assert (HMi : all_digits Mi = true) by apply TimestampFacts.pad_all_digits.
  assert (HS : all_digits S = true) by apply TimestampFacts.pad_all_digits.
  rewrite <- (string_of_list_ascii_of_string
                (replace_all (Class ["-"%char; ":"%char]) "" _)).
  rewrite TimestampFacts.replace_all_class.
  assert (HMs : all_digits Ms = true) by apply TimestampFacts.pad_all_digits.
  rewrite !TimestampFacts.chars_of_app.
  cbn [chars_of app].
  repeat first
    [ rewrite filter_digits_app by assumption
    | progress
        (cbn [List.filter];
         change (outside ["-"%char; ":"%char] "-") with false;
         change (outside ["-"%char; ":"%char] ":") with false;
         change (outside ["-"%char; ":"%char] "T") with true;
         change (outside ["-"%char; ":"%char] ".") with true;
         change (outside ["-"%char; ":"%char] "Z") with true;
         cbv iota) ].
  set (rest := chars_of Ms ++ ["Z"%char]).
  assert (E : chars_of Y ++ chars_of M ++ chars_of D ++
              "T"%char :: chars_of H ++ chars_of Mi ++ chars_of S ++
              "."%char :: rest =
              (chars_of Y ++ chars_of M ++ chars_of D ++
               "T"%char :: chars_of H ++ chars_of Mi ++ chars_of S) ++
              "."%char :: rest).
  { rewrite <- !app_assoc. cbn [app]. rewrite <- !app_assoc. reflexivity. }
  rewrite E, string_of_list_app.
  rewrite TimestampFacts.split_first_prefix.
  - cbn [string_of_list_ascii split_first]. cbn [chars_of].
    rewrite app_nil_r, <- !app_assoc. reflexivity.
  - rewrite !forallb_dotless_app. cbn [forallb].
    rewrite !forallb_dotless_app.
    rewrite !TimestampFacts.digits_dotless by assumption. reflexivity.
Qed.

Lemma chars_of_inj s1 s2 : chars_of s1 = chars_of s2 -> s1 = s2.
Proof.
  intros H. rewrite <- (string_of_list_ascii_of_string s1),
    <- (string_of_list_ascii_of_string s2). by rewrite H.
Qed.

Lemma date_digits_shape t :
  four_digit_year t ->
  String.length (date_digits t) = 8%nat /\ all_digits (date_digits t) = true.
Proof.
  intros Ht. pose proof (year_in_range t Ht) as Hy.
  pose proof (YearFromDay_bracket (Day t)) as Hb.
  pose proof (year_length (YearFromDay (Day t))) as Hlen.
  unfold date_digits.
  pose proof (MonthAndDate_range (Day t - DayFromYear (YearFromDay (Day t)))
                (InLeapYear (YearFromDay (Day t)))) as Hmd.
  destruct (MonthAndDate _ _) as [m d]. cbn [fst snd] in Hmd.
  destruct Hmd as [Hm Hd]; [lia|].
  split.
  - rewrite !ServerClaims.string_length_app.
    rewrite pad4_length by lia. rewrite !pad2_length by lia. reflexivity.
  - rewrite !TimestampFacts.all_digits_app.
    by rewrite !TimestampFacts.pad_all_digits.
Qed.

Lemma time_digits_shape t :
  String.length (time_digits t) = 6%nat /\ all_digits (time_digits t) = true.
Proof.
  unfold time_digits.
  assert (Htw : 0 <= TimeWithinDay t < 86400000)
    by (unfold TimeWithinDay, msPerDay; apply Z.mod_pos_bound; lia).
  assert (Hh : 0 <= TimeWithinDay t / 3600000 < 100).
  { split; [apply Z.div_pos; lia|]. apply Z.div_lt_upper_bound; lia. }
  assert (Hm : 0 <= TimeWithinDay t / 60000 mod 60 < 100).
  { pose proof (Z.mod_pos_bound (TimeWithinDay t / 60000) 60). lia. }
  assert (Hs : 0 <= TimeWithinDay t / 1000 mod 60 < 100).
  { pose proof (Z.mod_pos_bound (TimeWithinDay t / 1000) 60). lia. }
  split.
  - rewrite !ServerClaims.string_length_app.
    by rewrite !pad2_length by assumption.
  - rewrite !TimestampFacts.all_digits_app.
    by rewrite !TimestampFacts.pad_all_digits.
Qed.

(** X22: at every time whose UTC year is between 0000 and 9999 the push
    timestamp is the eight digits YYYYMMDD of the UTC date, the letter [T],
    and the six digits HHMMSS of the UTC time: fifteen characters, of which
    the ninth is not a digit. *)
Theorem X22_timestamp_format (t : Z) :
  four_digit_year t ->
  Index.make_timestamp t = date_digits t +:+ "T" +:+ time_digits t
  /\ String.length (date_digits t) = 8%nat
  /\ all_digits (date_digits t) = true
  /\ String.length (time_digits t) = 6%nat
  /\ all_digits (time_digits t) = true
  /\ String.length (Index.make_timestamp t) = 15%nat.
Proof.
  intros Ht.
  destruct (date_digits_shape t Ht) as [Hdl Hdd].
  destruct (time_digits_shape t) as [Htl Htd].
  assert (Heq : Index.make_timestamp t =
                date_digits t +:+ "T" +:+ time_digits t).
  { apply chars_of_inj.
    rewrite make_timestamp_chars by (by apply year_in_range).
    by rewrite TimestampFacts.chars_of_app. }
  repeat split; try done.
  rewrite Heq, ServerClaims.string_length_app, Hdl.
  change ("T" +:+ time_digits t) with (String "T" (time_digits t)).
  cbn [String.length]. by rewrite Htl.
Qed.

Lemma X22_witness :
  Index.make_timestamp Samples.clock =
  date_digits Samples.clock +:+ "T" +:+ time_digits Samples.clock
  /\ String.length (Index.make_timestamp Samples.clock) = 15%nat.
Proof.
  destruct (X22_timestamp_format Samples.clock) as (H1 & _ & _ & _ & _ & H2).
  - unfold four_digit_year, Samples.clock. lia.
  - split; [exact H1|exact H2].
Defined.

End TimestampFormat.
